(** * The chat turn pipeline of [llm_server.cpp]

    A shallow embedding of the adapter's session operations and of
    [generate_response], the function behind [llm_chat_respond] and
    [llm_chat_respond_stream].  The inference engine (llama.cpp) is not part
    of the adapter: its entry points are the fields of [llama_engine], and
    every statement below quantifies over the engine.

    Conventions.
    - C [int] values are [Z]; the counters of this file stay far from the
      ends of the 32-bit range ([i < max_tokens], [n_pos < 8192]).
    - A [char] buffer is a [list byte]; a pointer that the code treats as a
      C string denotes the bytes before the first NUL ([cstring]).
    - An access outside an object is undefined behaviour; it ends the
      computation with [Undefined]. *)

From Stdlib Require Import ZArith Lia Strings.String Strings.Byte Floats.SpecFloat.
From stdpp Require Import base list.

Local Open Scope Z_scope.

(** ** Outcomes *)

Inductive fault : Set :=
  | OutOfBoundsRead
  | OutOfBoundsWrite.

(** What a C function does: it hands back a value, or its behaviour is
    undefined. *)
Inductive outcome (A : Type) : Type :=
  | Done (a : A)
  | Undefined (f : fault).
Arguments Done {A} a.
Arguments Undefined {A} f.

(** A block of a function body: control goes on with a value ([Next]), the
    function returns early with its string result ([Return]), or the
    behaviour is undefined ([Stuck]). *)
Inductive flow (A : Type) : Type :=
  | Next (a : A)
  | Return (s : list byte)
  | Stuck (f : fault).
Arguments Next {A} a.
Arguments Return {A} s.
Arguments Stuck {A} f.

Definition flow_bind {A B} (m : flow A) (k : A → flow B) : flow B :=
  match m with
  | Next a => k a
  | Return s => Return s
  | Stuck f => Stuck f
  end.

(** ** C strings *)

(** The bytes a pointer to the start of [mem] denotes as a string. *)
Fixpoint cstring (mem : list byte) : list byte :=
  match mem with
  | [] => []
  | b :: rest => if Byte.eqb b x00 then [] else b :: cstring rest
  end.

(** [strlen]: the index of the first NUL.  Without one inside the object the
    scan leaves it. *)
Fixpoint strlen (mem : list byte) : option nat :=
  match mem with
  | [] => None
  | b :: rest => if Byte.eqb b x00 then Some O else S <$> strlen rest
  end.

(** [std::string::c_str]: the contents followed by a terminator. *)
Definition c_str (s : list byte) : list byte := s ++ [x00].

Definition strdup (p : list byte) : list byte := cstring p.

(** A string literal, as the array it is stored in. *)
Definition literal (s : string) : list byte := c_str (list_byte_of_string s).

Definition nul_free (s : list byte) : Prop := x00 ∉ s.

(** ** Engine data *)

Definition llama_token : Set := Z.
Definition float : Set := spec_float.

Record llama_chat_message : Set := {
  role : string;
  content : string;
}.

(** [llama_batch], a structure of arrays; [None] is a null array. *)
Record llama_batch : Set := {
  n_tokens : Z;
  token : list llama_token;
  pos : option (list Z);
  seq_id : option (list (list Z));
  logits : option (list bool);
}.

(** [llama_batch_init(n_tokens_alloc, 0, n_seq_max)]: arrays for
    [n_tokens_alloc] entries, none filled. *)
Definition llama_batch_init (n_tokens_alloc embd n_seq_max : Z) : llama_batch :=
  {| n_tokens := 0; token := []; pos := Some []; seq_id := Some [];
     logits := Some [] |}.

(** [llama_batch_add(batch, id, pos, seq_ids, logits)]: fills entry
    [batch.n_tokens] and counts it. *)
Definition llama_batch_add (batch : llama_batch) (id : llama_token) (p : Z)
    (seq_ids : list Z) (lg : bool) : llama_batch :=
  {| n_tokens := n_tokens batch + 1;
     token := token batch ++ [id];
     pos := (λ a, a ++ [p]) <$> pos batch;
     seq_id := (λ a, a ++ [seq_ids]) <$> seq_id batch;
     logits := (λ a, a ++ [lg]) <$> logits batch |}.

(** [llama_batch_get_one(tokens, n)]: the tokens alone; positions, sequence
    ids and logit flags are null and left to the engine. *)
Definition llama_batch_get_one (tokens : list llama_token) : llama_batch :=
  {| n_tokens := Z.of_nat (length tokens); token := tokens; pos := None;
     seq_id := None; logits := None |}.

(** The entry points of llama.h that the adapter calls.  The model and the
    vocabulary of a session never change, so the functions that take only
    those are functions of the engine.  A function that fills a caller's
    buffer takes the buffer's size and yields, with its return value, the
    buffer's content after the call. *)
Record llama_engine : Type := {
  llama_context : Type;
  llama_sampler : Type;
  (* chat, add_ass, length ↦ rendered length or a negative value, buf *)
  llama_chat_apply_template :
    list llama_chat_message → bool → Z → Z * list byte;
  (* text, n_tokens_max, add_special, parse_special ↦ count, tokens *)
  llama_tokenize : list byte → Z → bool → bool → Z * list llama_token;
  llama_decode : llama_context → llama_batch → Z * llama_context;
  llama_vocab_is_eog : llama_token → bool;
  (* token, length, lstrip, special ↦ byte count, buf *)
  llama_token_to_piece : llama_token → Z → Z → bool → Z * list byte;
  llama_kv_self_clear : llama_context → llama_context;
  llama_kv_self_n_tokens : llama_context → Z;
  llama_sampler_chain_init : llama_sampler;
  llama_sampler_init_temp : float → llama_sampler;
  llama_sampler_init_dist : Z → llama_sampler;
  llama_sampler_chain_add : llama_sampler → llama_sampler → llama_sampler;
  (* the sampler is an object with state: sampling updates it *)
  llama_sampler_sample :
    llama_sampler → llama_context → Z → llama_token * llama_sampler;
}.

(** ** The session *)

(** [struct LlmContext], over the engine's context type [C].  [model] and
    [vocab] are fixed by the engine; [llm_init] returns a session only when
    [ctx] is set (lines 57-61). *)
Record LlmContext (C : Type) : Type := {
  ctx : C;
  chat_history : list llama_chat_message;
  chat_buffer : list byte;
}.
Arguments ctx {C} l.
Arguments chat_history {C} l.
Arguments chat_buffer {C} l.

(** [TokenCallback], a function pointer taking the piece as a C string and
    the caller's [user_data], and returning nothing.  The sink reads the
    string it is given and updates what [user_data] points to. *)
Definition TokenCallback (U : Type) : Type := list byte → U → U.

(** What a call of [generate_response] leaves behind. *)
Record turn (C U : Type) : Type := {
  result : list byte;
  session : LlmContext C;
  sink_data : U;
}.
Arguments result {C U} t.
Arguments session {C U} t.
Arguments sink_data {C U} t.

(** How the decode loop was left. *)
Inductive stop : Set :=
  | EndOfGeneration
  | MaxTokens
  | ContextLimit.

(** The variables of the decode loop when it is left; [generated] and
    [exit_by] record the tokens that passed the end-of-generation test and
    the way out. *)
Record generation (C U : Type) : Type := {
  response : list byte;
  gen_ctx : C;
  gen_user_data : U;
  n_pos : Z;
  generated : list llama_token;
  exit_by : stop;
}.
Arguments response {C U} g.
Arguments gen_ctx {C U} g.
Arguments gen_user_data {C U} g.
Arguments n_pos {C U} g.
Arguments generated {C U} g.
Arguments exit_by {C U} g.

Section Adapter.
Context (E : llama_engine).

Local Abbreviation Session := (LlmContext (llama_context E)).

(** Lines 22-30. *)
Definition sample_token (c : llama_context E) (temperature : float)
    : llama_token :=
  let smpl := llama_sampler_chain_init E in
  let smpl := llama_sampler_chain_add E smpl
                (llama_sampler_init_temp E temperature) in
  let smpl := llama_sampler_chain_add E smpl
                (llama_sampler_init_dist E 12345) in
  let '(new_token_id, _) := llama_sampler_sample E smpl c (-1) in
  new_token_id.

(** Lines 70-74. *)
Definition llm_kv_clear (llm : option Session)
    : option Session :=
  match llm with
  | Some l =>
      Some {| ctx := llama_kv_self_clear E (ctx l);
              chat_history := chat_history l;
              chat_buffer := chat_buffer l |}
  | None => None
  end.

(** Lines 76-81. *)
Definition llm_kv_count (llm : option Session) : Z :=
  match llm with
  | Some l => llama_kv_self_n_tokens E (ctx l)
  | None => 0
  end.

(** Lines 83-86. *)
Definition llm_chat_clear (llm : Session) : Session :=
  let llm := {| ctx := ctx llm; chat_history := [];
                chat_buffer := chat_buffer llm |} in
  default llm (llm_kv_clear (Some llm)).

(** Lines 88-90. *)
Definition llm_chat_add_user (llm : Session) (message : string)
    : Session :=
  {| ctx := ctx llm;
     chat_history :=
       chat_history llm ++ [{| role := "user"; content := message |}];
     chat_buffer := chat_buffer llm |}.

(** *** [generate_response], lines 92-168, block by block *)

(** Lines 96-119: the rendered prompt, as the content of [buf]. *)
Definition render_prompt (llm : Session) : flow (list byte) :=
  let size := 8192 in
  let '(len, buf) :=
    llama_chat_apply_template E (chat_history llm) true size in
  if len <? 0 then Return (strdup (literal "[Error: chat template failed]"))
  else if len >? size then
    let size := len + 1 in
    let '(_, buf) :=
      llama_chat_apply_template E (chat_history llm) true size in
    Next buf
  else Next buf.

(** Lines 121-132. *)
Definition tokenize_prompt (buf : list byte) : flow (list llama_token) :=
  match strlen buf with
  | None => Stuck OutOfBoundsRead
  | Some k =>
      let size := Z.of_nat k + 16 in
      let '(n_tokens, tokens) :=
        llama_tokenize E (take k buf) size true false in
      if n_tokens <? 0
      then Return (strdup (literal "[Error: tokenization failed]"))
      else Next (resize (Z.to_nat n_tokens) 0 tokens)
  end.

(** Lines 136-138. *)
Fixpoint batch_add_from (batch : llama_batch) (i : Z)
    (tokens : list llama_token) : llama_batch :=
  match tokens with
  | [] => batch
  | t :: rest => batch_add_from (llama_batch_add batch t i [0] false) (i + 1) rest
  end.

(** Line 139: [batch.logits[batch.n_tokens - 1] = 1]. *)
Definition mark_last (batch : llama_batch) : outcome llama_batch :=
  let i := n_tokens batch - 1 in
  match logits batch with
  | Some a =>
      if (0 <=? i) && (i <? Z.of_nat (length a))
      then Done {| n_tokens := n_tokens batch; token := token batch;
                   pos := pos batch; seq_id := seq_id batch;
                   logits := Some (<[Z.to_nat i := true]> a) |}
      else Undefined OutOfBoundsWrite
  | None => Undefined OutOfBoundsWrite
  end.

(** Lines 135-139: the prompt's batch. *)
Definition prompt_batch (tokens : list llama_token) : outcome llama_batch :=
  let batch := llama_batch_init (Z.of_nat (length tokens)) 0 1 in
  let batch := batch_add_from batch 0 tokens in
  mark_last batch.

(** Lines 152-160: one token's bytes, appended and streamed.  [piece] has
    256 bytes. *)
Definition emit_piece {U} (new_token : llama_token) (response : list byte)
    (callback : option (TokenCallback U)) (user_data : U)
    : outcome (list byte * U) :=
  let size := 256 in
  let '(n, piece) := llama_token_to_piece E new_token size 0 true in
  if n >? 0 then
    if n <=? size then
      let response := response ++ take (Z.to_nat n) piece in
      match callback with
      | Some cb =>
          if n <? size then
            let piece := <[Z.to_nat n := x00]> piece in
            Done (response, cb (cstring piece) user_data)
          else Undefined OutOfBoundsWrite
      | None => Done (response, user_data)
      end
    else Undefined OutOfBoundsRead
  else Done (response, user_data).


(** Lines 145-165.  [remaining] is [max_tokens - i]. *)
Fixpoint generate_loop {U} (remaining : nat) (temperature : float)
    (callback : option (TokenCallback U)) (c : llama_context E) (n_pos : Z)
    (response : list byte) (user_data : U) (generated : list llama_token)
    : outcome (generation (llama_context E) U) :=
  match remaining with
  | O => Done {| response := response; gen_ctx := c;
                 gen_user_data := user_data; n_pos := n_pos;
                 generated := generated; exit_by := MaxTokens |}
  | S remaining =>
      if n_pos <? 8192 then
        let new_token := sample_token c temperature in
        if llama_vocab_is_eog E new_token
        then Done {| response := response; gen_ctx := c;
                     gen_user_data := user_data; n_pos := n_pos;
                     generated := generated; exit_by := EndOfGeneration |}
        else
          match emit_piece new_token response callback user_data with
          | Undefined f => Undefined f
          | Done (response, user_data) =>
              let batch_next := llama_batch_get_one [new_token] in
              let '(_, c) := llama_decode E c batch_next in
              generate_loop remaining temperature callback c (n_pos + 1)
                response user_data (generated ++ [new_token])
          end
      else Done {| response := response; gen_ctx := c;
                   gen_user_data := user_data; n_pos := n_pos;
                   generated := generated; exit_by := ContextLimit |}
  end.

(** Lines 134-167, from the prompt's tokens on. *)
Definition generate_from {U} (llm : Session)
    (tokens : list llama_token) (max_tokens : Z) (temperature : float)
    (callback : option (TokenCallback U)) (user_data : U)
    : outcome (generation (llama_context E) U) :=
  match prompt_batch tokens with
  | Undefined f => Undefined f
  | Done batch =>
      let '(_, c) := llama_decode E (ctx llm) batch in
      let n_pos := Z.of_nat (length tokens) in
      generate_loop (Z.to_nat max_tokens) temperature callback c n_pos
        [] user_data []
  end.

(** Lines 96-132: the prompt's tokens. *)
Definition build_prompt (llm : Session) : flow (list llama_token) :=
  flow_bind (render_prompt llm) tokenize_prompt.

Definition generate_response {U} (llm : Session) (max_tokens : Z)
    (temperature : float) (callback : option (TokenCallback U))
    (user_data : U) : outcome (turn (llama_context E) U) :=
  match build_prompt llm with
  | Stuck f => Undefined f
  | Return s =>
      Done {| result := s; session := llm; sink_data := user_data |}
  | Next tokens =>
      match generate_from llm tokens max_tokens temperature callback
              user_data with
      | Undefined f => Undefined f
      | Done g =>
          Done {| result := strdup (c_str (response g));
                  session := {| ctx := gen_ctx g;
                                chat_history := chat_history llm;
                                chat_buffer := chat_buffer llm |};
                  sink_data := gen_user_data g |}
      end
  end.

(** Lines 170-172. *)
Definition llm_chat_respond (llm : Session) (max_tokens : Z)
    (temperature : float) : outcome (turn (llama_context E) unit) :=
  generate_response llm max_tokens temperature None tt.

(** Lines 174-178: the string is freed, the session and what the sink
    collected remain. *)
Definition llm_chat_respond_stream {U} (llm : Session)
    (max_tokens : Z) (temperature : float) (callback : option (TokenCallback U))
    (user_data : U) : outcome (Session * U) :=
  match generate_response llm max_tokens temperature callback user_data with
  | Done t => Done (session t, sink_data t)
  | Undefined f => Undefined f
  end.

(** Lines 185-189. *)
Definition llm_generate (llm : Session) (prompt : string)
    (max_tokens : Z) (temperature : float) : outcome (turn (llama_context E) unit) :=
  let llm := llm_chat_clear llm in
  let llm := llm_chat_add_user llm prompt in
  llm_chat_respond llm max_tokens temperature.

(** Lines 191-196. *)
Definition llm_generate_stream {U} (llm : Session) (prompt : string)
    (max_tokens : Z) (temperature : float) (callback : option (TokenCallback U))
    (user_data : U) : outcome (Session * U) :=
  let llm := llm_chat_clear llm in
  let llm := llm_chat_add_user llm prompt in
  llm_chat_respond_stream llm max_tokens temperature callback user_data.

End Adapter.

(** ** Auxiliary notions used in the statements *)

(** The sink of the end-to-end scenarios: it appends each piece it is given
    to a log. *)
Definition collect : TokenCallback (list (list byte)) :=
  λ piece log, log ++ [piece].

(** The status the engine hands back for the prompt's batch; line 140 throws
    it away. *)
Definition prefill_status (E : llama_engine)
    (llm : LlmContext (llama_context E))
    (tokens : list llama_token) : outcome Z :=
  match prompt_batch tokens with
  | Done batch => Done (llama_decode E (ctx llm) batch).1
  | Undefined f => Undefined f
  end.

(** What the caller can see of a call: the string, the engine context the
    session is left with, and what the sink collected. *)
Definition observation {C U} (o : outcome (turn C U))
    : outcome (list byte * C * U) :=
  match o with
  | Done t => Done (result t, ctx (session t), sink_data t)
  | Undefined f => Undefined f
  end.

(** The way out of the loop and the number of tokens it generated. *)
Definition way_out {C U} (o : outcome (generation C U)) : option (stop * nat) :=
  match o with
  | Done g => Some (exit_by g, length (generated g))
  | Undefined _ => None
  end.

(** The session once [llm_kv_clear] has run on it. *)
Definition cleared (E : llama_engine) (llm : LlmContext (llama_context E))
    : LlmContext (llama_context E) :=
  default llm (llm_kv_clear E (Some llm)).

(** An engine that differs from [E] only in the status [llama_decode]
    reports. *)
Definition with_decode_status (E : llama_engine)
    (status : llama_context E → llama_batch → Z) : llama_engine :=
  {| llama_context := llama_context E;
     llama_sampler := llama_sampler E;
     llama_chat_apply_template := llama_chat_apply_template E;
     llama_tokenize := llama_tokenize E;
     llama_decode := λ c batch, (status c batch, (llama_decode E c batch).2);
     llama_vocab_is_eog := llama_vocab_is_eog E;
     llama_token_to_piece := llama_token_to_piece E;
     llama_kv_self_clear := llama_kv_self_clear E;
     llama_kv_self_n_tokens := llama_kv_self_n_tokens E;
     llama_sampler_chain_init := llama_sampler_chain_init E;
     llama_sampler_init_temp := llama_sampler_init_temp E;
     llama_sampler_init_dist := llama_sampler_init_dist E;
     llama_sampler_chain_add := llama_sampler_chain_add E;
     llama_sampler_sample := llama_sampler_sample E |}.

(** The bytes and the count [llama_token_to_piece] yields for the 256-byte
    buffer of the decode loop. *)
Definition piece_of (E : llama_engine) (t : llama_token) : list byte :=
  let '(n, piece) := llama_token_to_piece E t 256 0 true in
  take (Z.to_nat n) piece.

Definition piece_len (E : llama_engine) (t : llama_token) : Z :=
  (llama_token_to_piece E t 256 0 true).1.

(** Every piece leaves room in [piece] for what the loop does with it: the
    bytes are inside the buffer, and so is the terminator when a sink is
    given. *)
Definition pieces_fit {U} (E : llama_engine)
    (callback : option (TokenCallback U)) : Prop :=
  ∀ t, piece_len E t ≤ 256 ∧ (is_Some callback → piece_len E t < 256).


(** The engine's cache is empty once cleared. *)
Definition kv_clear_empties (E : llama_engine) : Prop :=
  ∀ c, llama_kv_self_n_tokens E (llama_kv_self_clear E c) = 0.

(** ** The operations as the specification words them *)

Module Spec.
Section Spec.
Context (E : llama_engine).

Local Abbreviation Session := (LlmContext (llama_context E)).

(** [clear_history]: drops all history entries and clears the engine's
    key-value cache. *)
Definition clear_history (s : Session) : Session :=
  {| ctx := llama_kv_self_clear E (ctx s); chat_history := [];
     chat_buffer := chat_buffer s |}.

(** [append_user]: appends [("user", text)] to the history. *)
Definition append_user (s : Session) (text : string) : Session :=
  {| ctx := ctx s;
     chat_history := chat_history s ++ [{| role := "user"; content := text |}];
     chat_buffer := chat_buffer s |}.

(** [generate] = [clear_history] + [append_user] + [respond]. *)
Definition generate (s : Session) (prompt : string) (max_tokens : Z)
    (temperature : float) : outcome (turn (llama_context E) unit) :=
  llm_chat_respond E (append_user (clear_history s) prompt) max_tokens
    temperature.

Inductive prompt_result : Type :=
  | TemplateError
  | TokenizeError
  | Prompt (tokens : list llama_token).

(** Prompt Builder, steps 1 and 2: render with the add-assistant flag into
    8 KiB; if the required size exceeds the buffer, re-render into required
    size + 1 bytes.  Yields the reported size and the buffer. *)
Definition render (history : list llama_chat_message) : Z * list byte :=
  let initial := 8192 in
  let '(required, bytes) :=
    llama_chat_apply_template E history true initial in
  if initial <? required
  then (required, (llama_chat_apply_template E history true (required + 1)).2)
  else (required, bytes).

(** Step 3: tokenize the rendered byte string, BOS added, special tokens not
    parsed, into [len(bytes) + 16] tokens. *)
Definition tokenize (text : list byte) : prompt_result :=
  let '(count, tokens) :=
    llama_tokenize E text (Z.of_nat (length text) + 16) true false in
  if count <? 0 then TokenizeError
  else Prompt (resize (Z.to_nat count) 0 tokens).

Definition prompt_builder (history : list llama_chat_message)
    : prompt_result :=
  let '(required, bytes) := render history in
  if required <? 0 then TemplateError
  else tokenize (take (Z.to_nat required) bytes).

End Spec.
End Spec.

(** How the code reports the builder's results. *)
Definition flow_of_prompt (r : Spec.prompt_result) : flow (list llama_token) :=
  match r with
  | Spec.TemplateError =>
      Return (list_byte_of_string "[Error: chat template failed]")
  | Spec.TokenizeError =>
      Return (list_byte_of_string "[Error: tokenization failed]")
  | Spec.Prompt tokens => Next tokens
  end.

(** ** A mock engine

    A deterministic engine for running the adapter: one token per byte, a
    scripted reply, a cache that records the tokens it was given. *)

Module Mock.

Record config : Type := {
  template_known : bool;        (* whether the model's template renders *)
  tokens_per_byte : nat;        (* tokens the tokenizer emits per byte *)
  n_batch : Z;                  (* largest batch [llama_decode] accepts *)
  reply : list llama_token;     (* what the model says, then end of generation *)
  vocab : llama_token → list byte;
}.

Record context : Set := {
  kv : list llama_token;        (* the tokens in the cache *)
  step : nat;                   (* single-token batches since the last prompt *)
}.

Variant stage : Set :=
  | Temp (t : float)
  | Dist (seed : Z).

Definition eos : llama_token := 2.
Definition bos : llama_token := 1.

Definition render_message (m : llama_chat_message) : list byte :=
  list_byte_of_string (role m) ++ list_byte_of_string ": "
    ++ list_byte_of_string (content m) ++ [x0a].

Definition render (chat : list llama_chat_message) (add_ass : bool)
    : list byte :=
  concat (render_message <$> chat)
    ++ (if add_ass then list_byte_of_string "assistant: " else []).

(** [strncpy(buf, s, len)] on success, as llama.cpp does. *)
Definition chat_apply_template (cfg : config)
    (chat : list llama_chat_message) (add_ass : bool) (len : Z)
    : Z * list byte :=
  if template_known cfg then
    let s := render chat add_ass in
    (Z.of_nat (length s), resize (Z.to_nat len) x00 s)
  else (-1, replicate (Z.to_nat len) x00).

Definition encode (cfg : config) (text : list byte) (add_special : bool)
    : list llama_token :=
  (if add_special then [bos] else [])
    ++ (text ≫= λ b, replicate (tokens_per_byte cfg) (Z.of_N (Byte.to_N b))).

Definition tokenize (cfg : config) (text : list byte) (n_tokens_max : Z)
    (add_special parse_special : bool) : Z * list llama_token :=
  let toks := encode cfg text add_special in
  let n := Z.of_nat (length toks) in
  if n <=? n_tokens_max then (n, resize (Z.to_nat n_tokens_max) 0 toks)
  else (- n, replicate (Z.to_nat n_tokens_max) 0).

Definition decode (cfg : config) (c : context) (batch : llama_batch)
    : Z * context :=
  if n_tokens batch >? n_batch cfg then (1, c)
  else (0, {| kv := kv c ++ token batch;
              step := match pos batch with
                      | Some _ => 0
                      | None => S (step c)
                      end |}).

Definition token_to_piece (cfg : config) (t : llama_token) (len lstrip : Z)
    (special : bool) : Z * list byte :=
  let p := vocab cfg t in
  let n := Z.of_nat (length p) in
  if n <=? len then (n, resize (Z.to_nat len) x00 p)
  else (- n, replicate (Z.to_nat len) x00).

Definition engine (cfg : config) : llama_engine :=
  {| llama_context := context;
     llama_sampler := list stage;
     llama_chat_apply_template := chat_apply_template cfg;
     llama_tokenize := tokenize cfg;
     llama_decode := decode cfg;
     llama_vocab_is_eog := λ t, t =? eos;
     llama_token_to_piece := token_to_piece cfg;
     llama_kv_self_clear := λ _, {| kv := []; step := 0 |};
     llama_kv_self_n_tokens := λ c, Z.of_nat (length (kv c));
     llama_sampler_chain_init := [];
     llama_sampler_init_temp := λ t, [Temp t];
     llama_sampler_init_dist := λ seed, [Dist seed];
     llama_sampler_chain_add := λ chain s, chain ++ s;
     llama_sampler_sample := λ smpl c idx, (nth (step c) (reply cfg) eos, smpl) |}.

(** Printable ASCII, one byte per token. *)
Definition ascii_vocab (t : llama_token) : list byte :=
  if (32 <=? t) && (t <? 127) then
    match Byte.of_N (Z.to_N t) with
    | Some b => [b]
    | None => []
    end
  else [].

(** Byte-fallback tokens [0..255], and token 300 with a piece of 256 bytes. *)
Definition wide_vocab (t : llama_token) : list byte :=
  if t =? 300 then replicate 256 "a"%byte
  else match Byte.of_N (Z.to_N t) with
       | Some b => [b]
       | None => []
       end.

Definition tokens_of (s : string) : list llama_token :=
  (λ b, Z.of_N (Byte.to_N b)) <$> list_byte_of_string s.

Definition plain : config :=
  {| template_known := true; tokens_per_byte := 1; n_batch := 2048;
     reply := tokens_of "Hello"; vocab := ascii_vocab |}.

(** A model whose chat template the engine cannot render. *)
Definition unsupported : config :=
  {| template_known := false; tokens_per_byte := 1; n_batch := 2048;
     reply := tokens_of "Hello"; vocab := ascii_vocab |}.

(** A tokenizer that needs more tokens than the buffer has. *)
Definition verbose : config :=
  {| template_known := true; tokens_per_byte := 20; n_batch := 2048;
     reply := tokens_of "Hello"; vocab := ascii_vocab |}.

(** A context that takes batches of at most 8 tokens. *)
Definition tight : config :=
  {| template_known := true; tokens_per_byte := 1; n_batch := 8;
     reply := tokens_of "Hello"; vocab := ascii_vocab |}.

(** A model that says token 300, whose piece has 256 bytes. *)
Definition wide : config :=
  {| template_known := true; tokens_per_byte := 1; n_batch := 2048;
     reply := [72; 300; 105]; vocab := wide_vocab |}.

(** A model that says the byte-fallback token of NUL between two letters. *)
Definition binary : config :=
  {| template_known := true; tokens_per_byte := 1; n_batch := 2048;
     reply := [97; 0; 98]; vocab := wide_vocab |}.

Definition fresh : context := {| kv := []; step := 0 |}.

Definition open (cfg : config) (history : list llama_chat_message)
    : LlmContext context :=
  {| ctx := fresh; chat_history := history; chat_buffer := [] |}.

Definition user (text : string) : llama_chat_message :=
  {| role := "user"; content := text |}.

Definition zero : float := S754_zero false.

(** The prompt of the history [user "hi"]: BOS, then the bytes of
    [user: hi], a line feed and [assistant: ]. *)
Definition hi_tokens : list llama_token :=
  [1; 117; 115; 101; 114; 58; 32; 104; 105; 10;
   97; 115; 115; 105; 115; 116; 97; 110; 116; 58; 32].

(** A message of [n] letters. *)
Definition long_user (n : Z) : llama_chat_message :=
  user (string_of_list_byte (replicate (Z.to_nat n) "a"%byte)).

End Mock.

(** ** Further notions about a turn *)

(** Lines 162-163 for one token: the context after its single-token
    batch. *)
Definition decode_one (E : llama_engine) (c : llama_context E)
    (t : llama_token) : llama_context E :=
  (llama_decode E c (llama_batch_get_one [t])).2.

(** The string line 158 hands to the sink for a token: what [piece] holds
    up to the terminator stored at the token's length. *)
Definition delivered (E : llama_engine) (t : llama_token) : list byte :=
  cstring (<[Z.to_nat (piece_len E t) := x00]>
             (llama_token_to_piece E t 256 0 true).2).

(** Lines 154-160 as seen from the sink: called for a token of at least one
    byte, left alone otherwise. *)
Definition deliver {U} (E : llama_engine)
    (callback : option (TokenCallback U)) (user_data : U) (t : llama_token)
    : U :=
  match callback with
  | Some cb => if piece_len E t >? 0 then cb (delivered E t) user_data
               else user_data
  | None => user_data
  end.

(** The string a call returns and the session it leaves, without what the
    sink collected. *)
Definition outputs {C U} (o : outcome (turn C U))
    : outcome (list byte * LlmContext C) :=
  match o with
  | Done t => Done (result t, session t)
  | Undefined f => Undefined f
  end.


(** An engine that differs from [E] only in its tokenizer. *)
Definition with_tokenizer (E : llama_engine)
    (tokenizer : list byte → Z → bool → bool → Z * list llama_token)
    : llama_engine :=
  {| llama_context := llama_context E;
     llama_sampler := llama_sampler E;
     llama_chat_apply_template := llama_chat_apply_template E;
     llama_tokenize := tokenizer;
     llama_decode := llama_decode E;
     llama_vocab_is_eog := llama_vocab_is_eog E;
     llama_token_to_piece := llama_token_to_piece E;
     llama_kv_self_clear := llama_kv_self_clear E;
     llama_kv_self_n_tokens := llama_kv_self_n_tokens E;
     llama_sampler_chain_init := llama_sampler_chain_init E;
     llama_sampler_init_temp := llama_sampler_init_temp E;
     llama_sampler_init_dist := llama_sampler_init_dist E;
     llama_sampler_chain_add := llama_sampler_chain_add E;
     llama_sampler_sample := llama_sampler_sample E |}.

(** A tokenizer that finds no token in any text. *)
Definition silent_tokenizer (text : list byte) (n_tokens_max : Z)
    (add_special parse_special : bool) : Z * list llama_token :=
  (0, replicate (Z.to_nat n_tokens_max) 0).

(** An engine that differs from [E] in its sampler stages alone: in the
    temperature stage it builds for a temperature, in the distribution
    stage it builds for a seed, and in the state a sampler is left in once
    it has been sampled.  The token a given sampler draws from a given
    context is the one [E] draws. *)
Definition with_sampler_stages (E : llama_engine)
    (temp_stage : float → llama_sampler E)
    (dist_stage : Z → llama_sampler E)
    (after : llama_sampler E → llama_context E → Z → llama_sampler E)
    : llama_engine :=
  {| llama_context := llama_context E;
     llama_sampler := llama_sampler E;
     llama_chat_apply_template := llama_chat_apply_template E;
     llama_tokenize := llama_tokenize E;
     llama_decode := llama_decode E;
     llama_vocab_is_eog := llama_vocab_is_eog E;
     llama_token_to_piece := llama_token_to_piece E;
     llama_kv_self_clear := llama_kv_self_clear E;
     llama_kv_self_n_tokens := llama_kv_self_n_tokens E;
     llama_sampler_chain_init := llama_sampler_chain_init E;
     llama_sampler_init_temp := temp_stage;
     llama_sampler_init_dist := dist_stage;
     llama_sampler_chain_add := llama_sampler_chain_add E;
     llama_sampler_sample := λ smpl c idx,
       ((llama_sampler_sample E smpl c idx).1, after smpl c idx) |}.

(** A mock engine whose draws depend on the seed of the distribution stage:
    with an odd seed it skips the first token of the scripted reply. *)
Definition seed_shift (smpl : list Mock.stage) : nat :=
  match last smpl with
  | Some (Mock.Dist seed) => Z.to_nat (seed mod 2)
  | _ => 0%nat
  end.

Definition seeded_engine (cfg : Mock.config) : llama_engine :=
  {| llama_context := Mock.context;
     llama_sampler := list Mock.stage;
     llama_chat_apply_template := Mock.chat_apply_template cfg;
     llama_tokenize := Mock.tokenize cfg;
     llama_decode := Mock.decode cfg;
     llama_vocab_is_eog := λ t, t =? Mock.eos;
     llama_token_to_piece := Mock.token_to_piece cfg;
     llama_kv_self_clear := λ _, Mock.fresh;
     llama_kv_self_n_tokens := λ c, Z.of_nat (length (Mock.kv c));
     llama_sampler_chain_init := [];
     llama_sampler_init_temp := λ t, [Mock.Temp t];
     llama_sampler_init_dist := λ seed, [Mock.Dist seed];
     llama_sampler_chain_add := λ chain s, chain ++ s;
     llama_sampler_sample := λ smpl c idx,
       (nth (Mock.step c + seed_shift smpl) (Mock.reply cfg) Mock.eos,
        smpl ++ [Mock.Dist 0]) |}.

(** Whether no byte of [s] is NUL. *)
Definition no_nul (s : list byte) : bool :=
  forallb (λ b, negb (Byte.eqb b x00)) s.

(** ** Opening and closing a session: lines 8-19 and 34-68 *)

Module Lifecycle.

(** The parameter structures, with the fields the adapter sets; the others
    keep what the engine's defaults hold. *)
Record llama_model_params (R : Type) : Type := {
  n_gpu_layers : Z;
  model_rest : R;
}.
Arguments n_gpu_layers {R} _.
Arguments model_rest {R} _.

Record llama_context_params (R : Type) : Type := {
  n_ctx : Z;
  n_batch : Z;
  n_threads : Z;
  context_rest : R;
}.
Arguments n_ctx {R} _.
Arguments n_batch {R} _.
Arguments n_threads {R} _.
Arguments context_rest {R} _.

(** What [llm_init] calls: the loader of llama.h and the standard library's
    count of hardware threads, an unsigned number.  A null result is
    [None]. *)
Record llama_loader (E : llama_engine) : Type := {
  llama_model : Type;
  model_defaults : Type;
  context_defaults : Type;
  llama_model_default_params : llama_model_params model_defaults;
  llama_context_default_params : llama_context_params context_defaults;
  llama_model_load_from_file :
    string → llama_model_params model_defaults → option llama_model;
  llama_init_from_model :
    llama_model → llama_context_params context_defaults
    → option (llama_context E);
  hardware_concurrency : N;
}.
Arguments llama_model {E} _.
Arguments model_defaults {E} _.
Arguments context_defaults {E} _.
Arguments llama_model_default_params {E} _.
Arguments llama_context_default_params {E} _.
Arguments llama_model_load_from_file {E} _.
Arguments llama_init_from_model {E} _.
Arguments hardware_concurrency {E} _.

(** What a call does to the engine's resources, in order. *)
Inductive event (M C : Type) : Type :=
  | BackendInit
  | ModelLoaded (m : M)
  | ContextCreated (c : C)
  | ContextFreed (c : C)
  | ModelFreed (m : M).
Arguments BackendInit {M C}.
Arguments ModelLoaded {M C} m.
Arguments ContextCreated {M C} c.
Arguments ContextFreed {M C} c.
Arguments ModelFreed {M C} m.

Section Lifecycle.
Context {E : llama_engine} (L : llama_loader E).

Local Abbreviation M := (llama_model L).
Local Abbreviation C := (llama_context E).

(** Lines 15-18, the destructor: the context if there is one, then the
    model if there is one. *)
Definition destroy (model : option M) (c : option C) : list (event M C) :=
  match c with Some c => [ContextFreed c] | None => [] end
  ++ match model with Some m => [ModelFreed m] | None => [] end.

(** Lines 40-41. *)
Definition model_params : llama_model_params (model_defaults L) :=
  {| n_gpu_layers := 100;
     model_rest := model_rest (llama_model_default_params L) |}.

(** Lines 52-55. *)
Definition ctx_params : llama_context_params (context_defaults L) :=
  {| n_ctx := 8192;
     n_batch := 2048;
     n_threads := Z.of_N (hardware_concurrency L / 2);
     context_rest := context_rest (llama_context_default_params L) |}.

(** Lines 34-64: the model handle and the session, or null, with what was
    done to get there. *)
Definition llm_init (model_path : string)
    : option (M * LlmContext C) * list (event M C) :=
  let log := [BackendInit] in
  match llama_model_load_from_file L model_path model_params with
  | None => (None, log ++ destroy None None)
  | Some m =>
      let log := log ++ [ModelLoaded m] in
      match llama_init_from_model L m ctx_params with
      | None => (None, log ++ destroy (Some m) None)
      | Some c =>
          (Some (m, {| ctx := c; chat_history := []; chat_buffer := [] |}),
           log ++ [ContextCreated c])
      end
  end.

(** Lines 66-68; deleting a null pointer does nothing. *)
Definition llm_free (llm : option (M * LlmContext C)) : list (event M C) :=
  match llm with
  | Some (m, s) => destroy (Some m) (Some (ctx s))
  | None => []
  end.

(** The handles a log acquires and the ones it releases. *)
Definition models_acquired (log : list (event M C)) : list M :=
  log ≫= λ e, match e with ModelLoaded m => [m] | _ => [] end.
Definition models_released (log : list (event M C)) : list M :=
  log ≫= λ e, match e with ModelFreed m => [m] | _ => [] end.
Definition contexts_acquired (log : list (event M C)) : list C :=
  log ≫= λ e, match e with ContextCreated c => [c] | _ => [] end.
Definition contexts_released (log : list (event M C)) : list C :=
  log ≫= λ e, match e with ContextFreed c => [c] | _ => [] end.

End Lifecycle.

(** A loader for the mock engine: a model is its file's name, and the file
    [path] is the only one there is; the context is created unless the
    machine is said to have no memory for it. *)
Definition mock_loader (E : llama_engine) (c0 : llama_context E)
    (path : string) (enough_memory : bool) (cores : N) : llama_loader E :=
  {| llama_model := string;
     model_defaults := unit;
     context_defaults := unit;
     llama_model_default_params := {| n_gpu_layers := 0; model_rest := () |};
     llama_context_default_params :=
       {| n_ctx := 512; n_batch := 512; n_threads := 4;
          context_rest := () |};
     llama_model_load_from_file := λ p _,
       if String.eqb p path then Some p else None;
     llama_init_from_model := λ _ _,
       if enough_memory then Some c0 else None;
     hardware_concurrency := cores |}.

End Lifecycle.

(** * Properties *)

(** ** C strings *)

Lemma eqb_x00 (b : byte) : Byte.eqb b x00 = true ↔ b = x00.
Proof.
  split; [apply Byte.byte_dec_bl | apply Byte.byte_dec_lb].
Qed.

Lemma cstring_id (s : list byte) : nul_free s → cstring s = s.
Proof.
  unfold nul_free. induction s as [|b s IH]; intros Hs; [done|].
  apply not_elem_of_cons in Hs as [Hb Hs]. simpl.
  destruct (Byte.eqb b x00) eqn:Hb0.
  - apply eqb_x00 in Hb0. congruence.
  - by rewrite IH.
Qed.

Lemma cstring_app_nul (s rest : list byte) :
  nul_free s → cstring (s ++ x00 :: rest) = s.
Proof.
  unfold nul_free. induction s as [|b s IH]; intros Hs; [done|].
  apply not_elem_of_cons in Hs as [Hb Hs]. simpl.
  destruct (Byte.eqb b x00) eqn:Hb0.
  - apply eqb_x00 in Hb0. congruence.
  - by rewrite IH.
Qed.


(** Storing a terminator at [n] makes the pointer denote the [n] bytes
    before it, when none of them is NUL. *)
Lemma cstring_terminated (n : nat) (mem : list byte) :
  nul_free (take n mem) → cstring (<[n := x00]> mem) = take n mem.
Proof.
  intros Hfree. destruct (decide (n < length mem)%nat) as [Hlt|Hge].
  - rewrite insert_take_drop by done. by apply cstring_app_nul.
  - rewrite list_insert_ge by lia. rewrite take_ge in Hfree |- * by lia.
    by apply cstring_id.
Qed.

Lemma strlen_spec (mem : list byte) (k : nat) :
  strlen mem = Some k →
  nul_free (take k mem) ∧ mem !! k = Some x00 ∧ cstring mem = take k mem.
Proof.
  unfold nul_free. revert k. induction mem as [|b mem IH]; intros k; [done|].
  simpl. destruct (Byte.eqb b x00) eqn:Hb0.
  - intros [= <-]. apply eqb_x00 in Hb0 as ->. split; [|done].
    simpl. apply not_elem_of_nil.
  - destruct (strlen mem) as [k'|]; [|done]. intros [= <-].
    destruct (IH k' eq_refl) as (Hfree & Hnul & Hstr). simpl.
    split; [|by rewrite Hstr].
    apply not_elem_of_cons. split; [|done].
    intros <-. by rewrite (proj2 (eqb_x00 x00) eq_refl) in Hb0.
Qed.


(** ** The decode loop *)

Section Loop.
Context (E : llama_engine).

(** Within the buffer, a piece is appended and, with a sink, delivered
    once. *)
Lemma emit_piece_fits {U} (callback : option (TokenCallback U))
    (t : llama_token) (response : list byte) (user_data : U) :
  pieces_fit E callback →
  emit_piece E t response callback user_data
  = Done (response ++ piece_of E t,
          match callback with
          | Some cb =>
              if piece_len E t >? 0
              then cb (cstring (<[Z.to_nat (piece_len E t) := x00]>
                                  (llama_token_to_piece E t 256 0 true).2))
                      user_data
              else user_data
          | None => user_data
          end).
Proof.
  intros Hfit. destruct (Hfit t) as [Hle Hlt].
  unfold emit_piece, piece_of, piece_len in *.
  destruct (llama_token_to_piece E t 256 0 true) as [n piece]. simpl in *.
  destruct (Z.gtb_spec n 0) as [Hpos|Hneg].
  - destruct (Z.leb_spec n 256); [|lia].
    destruct callback as [cb|]; [|done].
    destruct (Z.ltb_spec n 256) as [|Hbad]; [done|].
    specialize (Hlt (mk_is_Some _ _ eq_refl)). lia.
  - replace (Z.to_nat n) with 0%nat by lia.
    rewrite take_0, app_nil_r. by destruct callback.
Qed.


End Loop.

(** ** The prompt's batch *)

Lemma batch_add_from_shape (tokens : list llama_token) :
  ∀ batch i a,
  logits batch = Some a →
  ∃ a', logits (batch_add_from batch i tokens) = Some a'
    ∧ length a' = (length a + length tokens)%nat
    ∧ n_tokens (batch_add_from batch i tokens)
      = Z.of_nat (length tokens) + n_tokens batch
    ∧ token (batch_add_from batch i tokens) = token batch ++ tokens.
Proof.
  induction tokens as [|t tokens IH]; intros batch i a Ha; simpl.
  - exists a. rewrite app_nil_r. split_and!; [done | lia | lia | done].
  - edestruct (IH (llama_batch_add batch t i [0] false) (i + 1))
      as (a' & Ha' & Hlen & Hn & Htok).
    { simpl. rewrite Ha. done. }
    exists a'. rewrite Ha', Hn, Htok. simpl.
    rewrite length_app in Hlen. simpl in Hlen.
    rewrite <- app_assoc. split_and!; [done | lia | lia | done].
Qed.

(** A prompt of at least one token has a batch: the store of line 139 hits
    its last entry. *)
Lemma prompt_batch_done (tokens : list llama_token) :
  tokens ≠ [] →
  ∃ batch, prompt_batch tokens = Done batch
    ∧ n_tokens batch = Z.of_nat (length tokens)
    ∧ token batch = tokens.
Proof.
  intros Hne. unfold prompt_batch.
  destruct (batch_add_from_shape tokens (llama_batch_init (Z.of_nat (length tokens)) 0 1) 0 [])
    as (a & Ha & Hlen & Hn & Htok); [done|].
  simpl in Hlen, Hn, Htok. rewrite Z.add_0_r in Hn.
  unfold mark_last. rewrite Ha, Hn, Htok.
  assert (0 < length tokens)%nat by (destruct tokens; [done | simpl; lia]).
  destruct (Z.leb_spec 0 (Z.of_nat (length tokens) - 1)); [|lia].
  destruct (Z.ltb_spec (Z.of_nat (length tokens) - 1) (Z.of_nat (length a)));
    [|lia].
  simpl. eexists. split_and!; [done | done | done].
Qed.

(** An empty prompt makes line 139 store before the array. *)
Lemma prompt_batch_empty : prompt_batch [] = Undefined OutOfBoundsWrite.
Proof. reflexivity. Qed.

(** ** Claims *)


(** C3.  [llm_generate] is [clear_history], then [append_user], then
    [respond]: the same result and the same session afterwards.  The call
    runs on the cleared context and on a history that holds the prompt
    alone, whatever the session held before; [llm_generate_stream] is the
    same sequence ending in [llm_chat_respond_stream]. *)
Theorem generate_is_clear_add_respond (E : llama_engine)
    (llm : LlmContext (llama_context E)) (prompt : string) (max_tokens : Z)
    (temperature : float) :
  llm_generate E llm prompt max_tokens temperature
  = Spec.generate E llm prompt max_tokens temperature
  ∧ llm_generate E llm prompt max_tokens temperature
    = llm_chat_respond E
        (llm_chat_add_user E (llm_chat_clear E llm) prompt)
        max_tokens temperature
  ∧ llm_generate E llm prompt max_tokens temperature
    = generate_response E
        {| ctx := llama_kv_self_clear E (ctx llm);
           chat_history := [{| role := "user"; content := prompt |}];
           chat_buffer := chat_buffer llm |}
        max_tokens temperature None ()
  ∧ (∀ U (callback : option (TokenCallback U)) (user_data : U),
       llm_generate_stream E llm prompt max_tokens temperature callback
         user_data
       = llm_chat_respond_stream E
           (Spec.append_user E (Spec.clear_history E llm) prompt)
           max_tokens temperature callback user_data).
Proof.
  unfold llm_generate, llm_generate_stream, Spec.generate.
  assert (llm_chat_clear E llm = Spec.clear_history E llm) as ->
    by reflexivity.
  assert (∀ s, llm_chat_add_user E s prompt = Spec.append_user E s prompt)
    as Hadd by reflexivity.
  rewrite Hadd. split_and!; [done | done | | done].
  unfold llm_chat_respond, Spec.append_user, Spec.clear_history. simpl.
  reflexivity.
Qed.

(** C9.  A call of [generate_response] that returns leaves the history of
    the session as it was: the reply is handed to the caller and not
    appended. *)
Theorem respond_keeps_history (E : llama_engine) {U}
    (llm : LlmContext (llama_context E)) (max_tokens : Z)
    (temperature : float) (callback : option (TokenCallback U))
    (user_data : U) (t : turn (llama_context E) U) :
  generate_response E llm max_tokens temperature callback user_data = Done t →
  chat_history (session t) = chat_history llm.
Proof.
  unfold generate_response. destruct (build_prompt E llm) as [tokens|s|f].
  - destruct (generate_from E llm tokens _ _ _ _) as [g|f]; [|done].
    by intros [= <-].
  - by intros [= <-].
  - done.
Qed.

(** C7.  [llm_chat_clear] empties the history and clears the engine's
    cache; [llm_kv_clear] clears the cache and keeps the history.  After
    either, [llm_kv_count] is what the engine reports for a cleared cache:
    0. *)
Theorem clear_resets_cache (E : llama_engine)
    (llm : LlmContext (llama_context E)) :
  kv_clear_empties E →
  (chat_history (llm_chat_clear E llm) = []
   ∧ ctx (llm_chat_clear E llm) = llama_kv_self_clear E (ctx llm)
   ∧ llm_kv_count E (Some (llm_chat_clear E llm)) = 0)
  ∧ (∃ llm', llm_kv_clear E (Some llm) = Some llm'
      ∧ chat_history llm' = chat_history llm
      ∧ ctx llm' = llama_kv_self_clear E (ctx llm)
      ∧ llm_kv_count E (Some llm') = 0).
Proof.
  intros Hclear. split.
  - split_and!; [done | done | apply Hclear].
  - eexists. split_and!; [done | done | done | apply Hclear].
Qed.

(** C6.  A negative length from the template renderer makes the call
    return exactly ["[Error: chat template failed]"], and a negative count
    from the tokenizer exactly ["[Error: tokenization failed]"].  Either
    way the string is the function's ordinary result; the session is left
    as it was and the sink is not called. *)
Theorem turn_errors_are_sentinels (E : llama_engine) {U}
    (llm : LlmContext (llama_context E)) (max_tokens : Z)
    (temperature : float) (callback : option (TokenCallback U))
    (user_data : U) :
  ((llama_chat_apply_template E (chat_history llm) true 8192).1 < 0 →
   generate_response E llm max_tokens temperature callback user_data
   = Done {| result := list_byte_of_string "[Error: chat template failed]";
             session := llm; sink_data := user_data |})
  ∧ (∀ buf k,
       render_prompt E llm = Next buf →
       strlen buf = Some k →
       (llama_tokenize E (take k buf) (Z.of_nat k + 16) true false).1 < 0 →
       generate_response E llm max_tokens temperature callback user_data
       = Done {| result := list_byte_of_string "[Error: tokenization failed]";
                 session := llm; sink_data := user_data |}).
Proof.
  split.
  - intros Hlen. unfold generate_response, build_prompt, render_prompt.
    destruct (llama_chat_apply_template E (chat_history llm) true 8192)
      as [len buf].
    simpl in Hlen. destruct (Z.ltb_spec len 0); [done | lia].
  - intros buf k Hbuf Hk Hcount.
    unfold generate_response, build_prompt. rewrite Hbuf. simpl.
    unfold tokenize_prompt. rewrite Hk.
    destruct (llama_tokenize E (take k buf) (Z.of_nat k + 16) true false)
      as [count tokens].
    simpl in Hcount. destruct (Z.ltb_spec count 0); [done | lia].
Qed.

(** C10.  [piece] has 256 bytes.  For a token of [n > 0] bytes and a sink,
    the loop stores a terminator at index [n] before it calls the sink.
    When [n < 256] the store is inside [piece], and the sink is given the
    string that ends there: the [n] bytes of the token when none of them is
    NUL.  When the token fills the buffer, [n = 256], the store is outside
    it. *)
Theorem piece_terminator_bounds (E : llama_engine) {U}
    (new_token : llama_token) (response : list byte) (cb : TokenCallback U)
    (user_data : U) :
  let n := piece_len E new_token in
  let piece := (llama_token_to_piece E new_token 256 0 true).2 in
  0 < n →
  (n < 256 →
     emit_piece E new_token response (Some cb) user_data
     = Done (response ++ take (Z.to_nat n) piece,
             cb (cstring (<[Z.to_nat n := x00]> piece)) user_data)
     ∧ (length piece = 256%nat →
        <[Z.to_nat n := x00]> piece !! Z.to_nat n = Some x00)
     ∧ (nul_free (take (Z.to_nat n) piece) →
        cstring (<[Z.to_nat n := x00]> piece) = take (Z.to_nat n) piece)
     ∧ (length piece = 256%nat →
        Z.of_nat (length (take (Z.to_nat n) piece)) = n))
  ∧ (n = 256 →
     emit_piece E new_token response (Some cb) user_data
     = Undefined OutOfBoundsWrite).
Proof.
  unfold piece_len, emit_piece.
  destruct (llama_token_to_piece E new_token 256 0 true) as [n piece].
  simpl. intros Hpos. destruct (Z.gtb_spec n 0); [|lia]. split.
  - intros Hlt. destruct (Z.leb_spec n 256); [|lia].
    destruct (Z.ltb_spec n 256); [|lia]. split_and!.
    + done.
    + intros Hlen. apply list_lookup_insert_eq. lia.
    + apply cstring_terminated.
    + intros Hlen. rewrite length_take. lia.
  - intros ->. done.
Qed.

(** ** What [generate_response] depends on *)

Section Dependence.
Context (E : llama_engine).

(** A call reads the session's engine context and its history, nothing
    else. *)
Lemma generate_response_ext {U} (l1 l2 : LlmContext (llama_context E))
    (max_tokens : Z) (temperature : float)
    (callback : option (TokenCallback U)) (user_data : U) :
  ctx l1 = ctx l2 →
  chat_history l1 = chat_history l2 →
  observation (generate_response E l1 max_tokens temperature callback user_data)
  = observation (generate_response E l2 max_tokens temperature callback user_data).
Proof.
  intros Hctx Hhist.
  unfold generate_response, build_prompt, render_prompt, generate_from.
  rewrite Hctx, Hhist.
  destruct (flow_bind _ _) as [tokens|s|f]; [|simpl; congruence|done].
  destruct (prompt_batch tokens) as [batch|f]; [|done].
  destruct (llama_decode E (ctx l2) batch) as [status c].
  by destruct (generate_loop E _ _ _ _ _ _ _ _).
Qed.

(** The status of [llama_decode] reaches nothing in the loop. *)
Lemma generate_loop_status {U} (status : llama_context E → llama_batch → Z)
    (callback : option (TokenCallback U)) (temperature : float)
    (remaining : nat) :
  ∀ c n0 response user_data gen,
  generate_loop (with_decode_status E status) remaining temperature callback
    c n0 response user_data gen
  = generate_loop E remaining temperature callback c n0 response user_data
      gen.
Proof.
  induction remaining as [|k IH]; intros c n0 response user_data gen; [done|].
  simpl. destruct (n0 <? 8192); [|done].
  change (sample_token (with_decode_status E status) c temperature)
    with (sample_token E c temperature).
  destruct (llama_vocab_is_eog E (sample_token E c temperature)); [done|].
  change (@emit_piece (with_decode_status E status) U)
    with (@emit_piece E U).
  destruct (emit_piece E _ response callback user_data) as [[r u]|f]; [|done].
  destruct (llama_decode E c _) as [st c']. simpl. apply IH.
Qed.

End Dependence.

(** The sampler of lines 23-25 for an engine with other stages. *)
Lemma sample_token_stages (E : llama_engine)
    (temp_stage : float → llama_sampler E) (dist_stage : Z → llama_sampler E)
    (after : llama_sampler E → llama_context E → Z → llama_sampler E)
    (c : llama_context E) (temperature : float) :
  sample_token (with_sampler_stages E temp_stage dist_stage after) c
    temperature
  = (llama_sampler_sample E
       (llama_sampler_chain_add E
          (llama_sampler_chain_add E (llama_sampler_chain_init E)
             (temp_stage temperature))
          (dist_stage 12345))
       c (-1)).1.
Proof. reflexivity. Qed.

(** The loop asks for the temperature stage of the turn's temperature and
    for the distribution stage of seed 12345, and for no other; it keeps no
    sampler. *)
Lemma generate_loop_stages (E : llama_engine) {U}
    (temp1 temp2 : float → llama_sampler E)
    (dist1 dist2 : Z → llama_sampler E)
    (after1 after2 : llama_sampler E → llama_context E → Z → llama_sampler E)
    (callback : option (TokenCallback U)) (temperature : float)
    (remaining : nat) :
  temp1 temperature = temp2 temperature →
  dist1 12345 = dist2 12345 →
  ∀ c n0 resp user_data gen,
  generate_loop (with_sampler_stages E temp1 dist1 after1) remaining
    temperature callback c n0 resp user_data gen
  = generate_loop (with_sampler_stages E temp2 dist2 after2) remaining
      temperature callback c n0 resp user_data gen.
Proof.
  intros Htemp Hdist.
  induction remaining as [|k IH]; intros c n0 resp user_data gen; [done|].
  simpl. destruct (n0 <? 8192); [|done].
  rewrite !sample_token_stages, Htemp, Hdist.
  set (t := (llama_sampler_sample E _ c (-1)).1).
  destruct (llama_vocab_is_eog E t); [done|].
  change (@emit_piece (with_sampler_stages E temp1 dist1 after1) U)
    with (@emit_piece E U).
  change (@emit_piece (with_sampler_stages E temp2 dist2 after2) U)
    with (@emit_piece E U).
  destruct (emit_piece E t resp callback user_data) as [[r u]|f]; [|done].
  destruct (llama_decode E c _) as [st c']. apply IH.
Qed.

(** C8.  Two turns at the same temperature, 0 or any other, on sessions
    with the same history, freshly cleared to the same engine context, with
    the same [max_tokens], return the same string, give the sink the same
    pieces and leave the same context.  The two runs may be served by
    engines that differ in what a distribution stage does for every seed
    other than 12345, in what a temperature stage does for every other
    temperature, and in the state a sampler is left in when it has been
    sampled: the adapter builds the sampler for each token anew, from the
    turn's temperature and the constant seed 12345, and keeps none of its
    state, so nothing else of the sampler machinery reaches the reply.
    That a sampler so built draws the same token from the same context is
    the engine's part. *)
Theorem fixed_seed_turns_reproducible (E : llama_engine) {U}
    (temp1 temp2 : float → llama_sampler E)
    (dist1 dist2 : Z → llama_sampler E)
    (after1 after2 : llama_sampler E → llama_context E → Z → llama_sampler E)
    (l1 l2 : LlmContext (llama_context E)) (max_tokens : Z)
    (temperature : float) (callback : option (TokenCallback U))
    (user_data : U) :
  temp1 temperature = temp2 temperature →
  dist1 12345 = dist2 12345 →
  chat_history l1 = chat_history l2 →
  llama_kv_self_clear E (ctx l1) = llama_kv_self_clear E (ctx l2) →
  observation
    (generate_response (with_sampler_stages E temp1 dist1 after1)
       (cleared E l1) max_tokens temperature callback user_data)
  = observation
      (generate_response (with_sampler_stages E temp2 dist2 after2)
         (cleared E l2) max_tokens temperature callback user_data).
Proof.
  intros Htemp Hdist Hhist Hclear.
  rewrite (generate_response_ext (with_sampler_stages E temp1 dist1 after1)
             (cleared E l1) (cleared E l2)) by done.
  f_equal. unfold generate_response, generate_from.
  change (build_prompt (with_sampler_stages E temp1 dist1 after1))
    with (build_prompt E).
  change (build_prompt (with_sampler_stages E temp2 dist2 after2))
    with (build_prompt E).
  destruct (build_prompt E (cleared E l2)) as [tokens|s|f]; [|done..].
  destruct (prompt_batch tokens) as [batch|f]; [|done].
  change (llama_decode (with_sampler_stages E temp1 dist1 after1))
    with (llama_decode E).
  change (llama_decode (with_sampler_stages E temp2 dist2 after2))
    with (llama_decode E).
  destruct (llama_decode E _ batch) as [st c].
  by rewrite (generate_loop_stages E temp1 temp2 dist1 dist2 after1 after2).
Qed.

(** C4, as the code has it.  [generate_response] never looks at the status
    [llama_decode] reports, for the prompt or in the loop: whatever the
    engine reports, the call does what it does when the engine reports
    success and leaves the same context.  A failed prefill does not end the
    turn, and no error reaches the caller. *)
Theorem decode_status_ignored (E : llama_engine) {U}
    (status : llama_context E → llama_batch → Z)
    (llm : LlmContext (llama_context E)) (max_tokens : Z)
    (temperature : float) (callback : option (TokenCallback U))
    (user_data : U) :
  generate_response (with_decode_status E status) llm max_tokens temperature
    callback user_data
  = generate_response E llm max_tokens temperature callback user_data.
Proof.
  unfold generate_response, generate_from.
  change (build_prompt (with_decode_status E status) llm)
    with (build_prompt E llm).
  destruct (build_prompt E llm) as [tokens|s|f]; [|done..].
  destruct (prompt_batch tokens) as [batch|f]; [|done].
  change (llama_decode (with_decode_status E status) (ctx llm) batch)
    with (status (ctx llm) batch, (llama_decode E (ctx llm) batch).2).
  destruct (llama_decode E (ctx llm) batch) as [st c]. simpl.
  by rewrite generate_loop_status.
Qed.

(** ** Streaming *)

Section Streaming.
Context (E : llama_engine).


Lemma pieces_fit_no_sink {U V} (callback : option (TokenCallback U)) :
  pieces_fit E callback → pieces_fit E (None : option (TokenCallback V)).
Proof.
  intros Hfit t. destruct (Hfit t) as [Hle _]. split; [done|].
  by intros [? ?].
Qed.


(** Whatever the sink does with the pieces, it is called with the pieces
    of the log, in order, and the loop goes the same way. *)
Lemma generate_loop_any_sink {U} (cb : TokenCallback U)
    (temperature : float) (remaining : nat) :
  pieces_fit E (Some cb) →
  ∀ c n0 resp log gen (u0 : U),
  ∃ g,
    generate_loop E remaining temperature (Some collect) c n0 resp log gen
      = Done g
    ∧ generate_loop E remaining temperature (Some cb) c n0 resp
        (foldl (λ u piece, cb piece u) u0 log) gen
      = Done {| response := response g; gen_ctx := gen_ctx g;
                gen_user_data :=
                  foldl (λ u piece, cb piece u) u0 (gen_user_data g);
                n_pos := n_pos g; generated := generated g;
                exit_by := exit_by g |}.
Proof.
  intros Hfit.
  assert (pieces_fit E (Some collect)) as Hfit'.
  { intros t. destruct (Hfit t) as [Hle Hlt]. split; [done|].
    intros _. by apply Hlt. }
  induction remaining as [|k IH]; intros c n0 resp log gen u0.
  - eexists. split; [done|]. simpl. done.
  - simpl. destruct (n0 <? 8192).
    + destruct (llama_vocab_is_eog E (sample_token E c temperature)).
      * eexists. split; [done|]. simpl. done.
      * rewrite (emit_piece_fits E (Some collect)) by done.
        rewrite (emit_piece_fits E (Some cb)) by done.
        destruct (llama_decode E c _) as [status c'].
        destruct (piece_len E (sample_token E c temperature) >? 0).
        -- unfold collect.
           edestruct (IH c' (n0 + 1)) as (g & Hg & Hcb).
           exists g. split; [exact Hg|].
           rewrite foldl_app in Hcb. exact Hcb.
        -- apply IH.
    + eexists. split; [done|]. simpl. done.
Qed.

End Streaming.


(** Where the buffer holds the rendering as a string of the length the
    renderer reports, the prompt builder does what the specification's
    algorithm does: render with the add-assistant flag into 8192 bytes;
    when the reported size is larger, render again into a buffer of that
    size plus one; tokenize the rendered bytes, BOS added and special
    tokens not parsed, into a buffer of their number plus 16 tokens.  A
    rendering of exactly 8192 bytes is not such a case: see
    [full_buffer_is_read_past_its_end]. *)
Theorem prompt_builder_follows_spec (E : llama_engine)
    (llm : LlmContext (llama_context E)) :
  (0 ≤ (Spec.render E (chat_history llm)).1 →
   strlen (Spec.render E (chat_history llm)).2
   = Some (Z.to_nat (Spec.render E (chat_history llm)).1)) →
  build_prompt E llm
  = flow_of_prompt (Spec.prompt_builder E (chat_history llm)).
Proof.
  unfold build_prompt, render_prompt, Spec.prompt_builder, Spec.render.
  destruct (llama_chat_apply_template E (chat_history llm) true 8192)
    as [len buf] eqn:Hfirst.
  destruct (Z.ltb_spec len 0) as [Hneg|Hpos].
  - intros _. destruct (Z.ltb_spec 8192 len); [lia|].
    simpl. destruct (Z.ltb_spec len 0); [done | lia].
  - rewrite Z.gtb_ltb.
    assert (∀ bytes : list byte,
      strlen bytes = Some (Z.to_nat len) →
      tokenize_prompt E bytes
      = flow_of_prompt (Spec.tokenize E (take (Z.to_nat len) bytes)))
      as Htok.
    { intros bytes Hlen. unfold tokenize_prompt, Spec.tokenize. rewrite Hlen.
      destruct (strlen_spec _ _ Hlen) as (_ & Hnul & _).
      apply lookup_lt_Some in Hnul.
      rewrite length_take, Nat.min_l by lia.
      destruct (llama_tokenize E _ _ true false) as [count toks].
      by destruct (count <? 0). }
    destruct (Z.ltb_spec 8192 len) as [Hbig|Hsmall].
    + destruct (llama_chat_apply_template E (chat_history llm) true (len + 1))
        as [len' buf'].
      simpl. intros Hstr. destruct (Z.ltb_spec len 0); [lia|].
      apply Htok, Hstr. lia.
    + simpl. intros Hstr. destruct (Z.ltb_spec len 0); [lia|].
      apply Htok, Hstr. lia.
Qed.

(** ** The mock engine *)

Section MockFacts.
Import Mock.

Lemma ascii_vocab_length (t : llama_token) : (length (ascii_vocab t) ≤ 1)%nat.
Proof.
  unfold ascii_vocab. destruct (_ && _); [|simpl; lia].
  destruct (Byte.of_N _); simpl; lia.
Qed.


Lemma mock_piece_len (cfg : config) (t : llama_token) :
  (length (vocab cfg t) ≤ 256)%nat →
  piece_len (engine cfg) t = Z.of_nat (length (vocab cfg t))
  ∧ piece_of (engine cfg) t = vocab cfg t.
Proof.
  intros Hlen. unfold piece_len, piece_of. simpl. unfold token_to_piece.
  destruct (Z.leb_spec (Z.of_nat (length (vocab cfg t))) 256); [|lia].
  simpl. split; [done|].
  rewrite Nat2Z.id. rewrite take_resize_le by lia. by apply resize_all_alt.
Qed.

(** A vocabulary of pieces shorter than 256 bytes fits the buffer. *)
Lemma mock_pieces_fit {U} (cfg : config) (callback : option (TokenCallback U)) :
  (∀ t, (length (vocab cfg t) < 256)%nat) → pieces_fit (engine cfg) callback.
Proof.
  intros Hlen t. specialize (Hlen t).
  destruct (mock_piece_len cfg t) as [-> _]; lia.
Qed.


Lemma plain_pieces_fit {U} (callback : option (TokenCallback U)) :
  pieces_fit (engine plain) callback.
Proof.
  apply mock_pieces_fit. intros t. pose proof (ascii_vocab_length t).
  simpl. lia.
Qed.


Lemma strlen_resize (s : list byte) (n : nat) :
  nul_free s → (length s < n)%nat → strlen (resize n x00 s) = Some (length s).
Proof.
  unfold nul_free. revert n.
  induction s as [|b s IH]; intros n Hfree Hlen; simpl in Hlen.
  - destruct n; [lia | done].
  - destruct n as [|n]; [lia|]. apply not_elem_of_cons in Hfree as [Hb Hs].
    simpl.
    destruct (Byte.eqb b x00) eqn:Hb0.
    + apply eqb_x00 in Hb0. congruence.
    + rewrite IH by (done || lia). done.
Qed.

(** An engine that copies the rendering the way [strncpy] does leaves a
    terminated string of the reported length for every rendering whose
    length is not exactly 8192; at 8192 the first buffer is full (see
    [full_buffer_is_not_terminated] below). *)
Lemma mock_render_terminated (cfg : config)
    (chat : list llama_chat_message) :
  template_known cfg = true →
  nul_free (render chat true) →
  length (render chat true) ≠ Z.to_nat 8192 →
  strlen (Spec.render (engine cfg) chat).2
  = Some (Z.to_nat (Spec.render (engine cfg) chat).1).
Proof.
  intros Hknown Hfree Hlen. unfold Spec.render. simpl.
  unfold chat_apply_template. rewrite Hknown.
  destruct (Z.ltb_spec 8192 (Z.of_nat (length (render chat true))));
    simpl; rewrite Nat2Z.id; apply strlen_resize; (done || lia).
Qed.

Lemma mock_kv_clear_empties (cfg : config) : kv_clear_empties (engine cfg).
Proof. intros c. reflexivity. Qed.

End MockFacts.

(** ** Runs on the mock engine *)

Section Runs.
Import Mock.

(** The three ways out of the loop: the scripted reply ends, [max_tokens]
    is reached, the prompt already fills the context. *)
Example exit_on_end_of_generation :
  way_out (generate_from (engine plain) (open plain [user "hi"]) hi_tokens
             10 zero (Some collect) [])
  = Some (EndOfGeneration, 5%nat).
Proof. vm_compute. reflexivity. Qed.

Example exit_on_max_tokens :
  way_out (generate_from (engine plain) (open plain [user "hi"]) hi_tokens
             5 zero (Some collect) [])
  = Some (MaxTokens, 5%nat).
Proof. vm_compute. reflexivity. Qed.

Example exit_on_context_limit :
  ∃ tokens,
    build_prompt (engine plain) (open plain [long_user 8173]) = Next tokens
    ∧ length tokens = Z.to_nat 8192
    ∧ way_out (generate_from (engine plain) (open plain [long_user 8173])
                 tokens 5 zero (Some collect) [])
      = Some (ContextLimit, 0%nat).
Proof. eexists. split_and!; vm_compute; reflexivity. Qed.

(** A rendering longer than the first buffer is rendered again and
    tokenized whole: 9018 bytes, and BOS. *)
Example long_prompt_is_not_cut :
  ∃ tokens,
    build_prompt (engine plain) (open plain [long_user 9000]) = Next tokens
    ∧ length tokens = Z.to_nat 9019.
Proof. eexists. split; vm_compute; reflexivity. Qed.

(** A rendering of exactly 8192 bytes fills the first buffer and leaves no
    room for a terminator; line 112 does not ask for a larger one, and
    [strlen] runs off the buffer. *)
Example full_buffer_is_not_terminated :
  (chat_apply_template plain [long_user 8174] true 8192).1 = 8192
  ∧ build_prompt (engine plain) (open plain [long_user 8174])
    = Stuck OutOfBoundsRead.
Proof. split; vm_compute; reflexivity. Qed.

(** A piece that holds a NUL byte ends the returned string; the sink still
    gets the pieces after it. *)
Example nul_piece_cuts_result :
  observation (generate_response (engine binary) (open binary [user "hi"]) 4
                 zero (Some collect) [])
  = Done (["a"%byte],
          {| kv := hi_tokens ++ [97; 0; 98]; step := 3 |},
          [["a"%byte]; []; ["b"%byte]]).
Proof. vm_compute. reflexivity. Qed.

(** A piece of 256 bytes: appended without a sink, undefined with one. *)
Example wide_piece_without_sink :
  way_out (generate_from (engine wide) (open wide [user "hi"]) hi_tokens 3
             zero None ())
  = Some (MaxTokens, 3%nat).
Proof. vm_compute. reflexivity. Qed.

Example wide_piece_with_sink :
  generate_response (engine wide) (open wide [user "hi"]) 3 zero
    (Some collect) []
  = Undefined OutOfBoundsWrite.
Proof. vm_compute. reflexivity. Qed.




(** C4 as stated fails: the context takes 8 tokens a batch, the prompt has
    21, and [llama_decode] reports 1 for it.  The call goes on to the loop
    and returns what it returns when the prefill succeeds; the cache holds
    the three generated tokens and nothing of the prompt. *)
Lemma prefill_failure_not_surfaced :
  build_prompt (engine tight) (open tight [user "hi"]) = Next hi_tokens
  ∧ prefill_status (engine tight) (open tight [user "hi"]) hi_tokens = Done 1
  ∧ prefill_status (engine plain) (open plain [user "hi"]) hi_tokens = Done 0
  ∧ llm_chat_respond (engine tight) (open tight [user "hi"]) 3 zero
    = Done {| result := list_byte_of_string "Hel";
              session := {| ctx := {| kv := [72; 101; 108]; step := 3 |};
                            chat_history := [user "hi"];
                            chat_buffer := [] |};
              sink_data := () |}
  ∧ result <$> (match llm_chat_respond (engine plain)
                        (open plain [user "hi"]) 3 zero with
                | Done t => Some t
                | Undefined _ => None
                end)
    = Some (list_byte_of_string "Hel").
Proof. split_and!; vm_compute; reflexivity. Qed.

(** [prompt_builder_follows_spec] on a rendering that needs the second
    attempt. *)
Lemma prompt_builder_follows_spec_witness :
  (0 ≤ (Spec.render (engine plain)
          (chat_history (open plain [long_user 9000]))).1 →
   strlen (Spec.render (engine plain)
             (chat_history (open plain [long_user 9000]))).2
   = Some (Z.to_nat (Spec.render (engine plain)
                       (chat_history (open plain [long_user 9000]))).1))
  ∧ build_prompt (engine plain) (open plain [long_user 9000])
    = flow_of_prompt
        (Spec.prompt_builder (engine plain)
           (chat_history (open plain [long_user 9000]))).
Proof.
  assert (0 ≤ (Spec.render (engine plain)
                 (chat_history (open plain [long_user 9000]))).1 →
          strlen (Spec.render (engine plain)
                    (chat_history (open plain [long_user 9000]))).2
          = Some (Z.to_nat (Spec.render (engine plain)
                              (chat_history (open plain [long_user 9000]))).1))
    as H by (intros _; vm_compute; reflexivity).
  split; [exact H|].
  exact (prompt_builder_follows_spec (engine plain)
           (open plain [long_user 9000]) H).
Defined.

(** Witness of C6: a template that does not render, and a tokenizer that
    needs 401 tokens where the buffer has 36. *)
Lemma turn_errors_are_sentinels_witness :
  ((llama_chat_apply_template (engine unsupported)
      (chat_history (open unsupported [user "hi"])) true 8192).1 < 0
   ∧ generate_response (engine unsupported) (open unsupported [user "hi"]) 4
       zero (Some collect) []
     = Done {| result := list_byte_of_string "[Error: chat template failed]";
               session := open unsupported [user "hi"]; sink_data := [] |})
  ∧ (strlen (resize (Z.to_nat 8192) x00 (render [user "hi"] true)) = Some 20%nat
     ∧ (llama_tokenize (engine verbose)
          (take 20 (resize (Z.to_nat 8192) x00 (render [user "hi"] true)))
          (Z.of_nat 20 + 16) true false).1 < 0
     ∧ generate_response (engine verbose) (open verbose [user "hi"]) 4 zero
         (Some collect) []
       = Done {| result := list_byte_of_string "[Error: tokenization failed]";
                 session := open verbose [user "hi"]; sink_data := [] |}).
Proof.
  assert ((llama_chat_apply_template (engine unsupported)
             (chat_history (open unsupported [user "hi"])) true 8192).1 < 0)
    as H1 by (vm_compute; reflexivity).
  assert (render_prompt (engine verbose) (open verbose [user "hi"])
          = Next (resize (Z.to_nat 8192) x00 (render [user "hi"] true)))
    as H2 by (vm_compute; reflexivity).
  assert (strlen (resize (Z.to_nat 8192) x00 (render [user "hi"] true)) = Some 20%nat)
    as H3 by (vm_compute; reflexivity).
  assert ((llama_tokenize (engine verbose)
             (take 20 (resize (Z.to_nat 8192) x00 (render [user "hi"] true)))
             (Z.of_nat 20 + 16) true false).1 < 0)
    as H4 by (vm_compute; reflexivity).
  split.
  - split; [exact H1|].
    exact (proj1 (turn_errors_are_sentinels (engine unsupported)
                    (open unsupported [user "hi"]) 4 zero (Some collect) [])
             H1).
  - split; [exact H3|]. split; [exact H4|].
    exact (proj2 (turn_errors_are_sentinels (engine verbose)
                    (open verbose [user "hi"]) 4 zero (Some collect) [])
             _ _ H2 H3 H4).
Defined.

(** Witness of C7. *)
Lemma clear_resets_cache_witness :
  kv_clear_empties (engine plain)
  ∧ (chat_history
       (llm_chat_clear (engine plain)
          {| ctx := {| kv := hi_tokens; step := 0 |};
             chat_history := [user "hi"]; chat_buffer := [] |}) = []
     ∧ ctx (llm_chat_clear (engine plain)
              {| ctx := {| kv := hi_tokens; step := 0 |};
                 chat_history := [user "hi"]; chat_buffer := [] |})
       = llama_kv_self_clear (engine plain)
           (ctx {| ctx := {| kv := hi_tokens; step := 0 |};
                   chat_history := [user "hi"]; chat_buffer := [] |})
     ∧ llm_kv_count (engine plain)
         (Some (llm_chat_clear (engine plain)
                  {| ctx := {| kv := hi_tokens; step := 0 |};
                     chat_history := [user "hi"]; chat_buffer := [] |}))
       = 0)
  ∧ llm_kv_count (engine plain)
      (Some {| ctx := {| kv := hi_tokens; step := 0 |};
               chat_history := [user "hi"]; chat_buffer := [] |})
    = 21.
Proof.
  split; [apply mock_kv_clear_empties|]. split; [|reflexivity].
  exact (proj1 (clear_resets_cache (engine plain)
                  {| ctx := {| kv := hi_tokens; step := 0 |};
                     chat_history := [user "hi"]; chat_buffer := [] |}
                  (mock_kv_clear_empties plain))).
Defined.

(** Witness of C8: a session used before and a new one, at temperature 0,
    on the engine whose draws depend on the seed; the second run's engine
    builds other stages for every seed but 12345 and leaves its samplers in
    another state. *)
Lemma fixed_seed_turns_reproducible_witness :
  observation
    (generate_response
       (with_sampler_stages (seeded_engine plain) (λ t, [Temp t])
          (λ seed, [Dist seed]) (λ smpl _ _, smpl))
       (cleared (seeded_engine plain)
          {| ctx := {| kv := hi_tokens ++ [72; 101]; step := 2 |};
             chat_history := [user "hi"]; chat_buffer := [] |})
       4 zero (Some collect) [])
  = observation
      (generate_response
         (with_sampler_stages (seeded_engine plain) (λ t, [Temp t])
            (λ seed, if seed =? 12345 then [Dist 12345] else [Dist 0])
            (λ smpl _ _, smpl ++ smpl))
         (cleared (seeded_engine plain) (open plain [user "hi"]))
         4 zero (Some collect) []).
Proof.
  exact (fixed_seed_turns_reproducible (seeded_engine plain)
           (λ t, [Temp t]) (λ t, [Temp t])
           (λ seed, [Dist seed])
           (λ seed, if seed =? 12345 then [Dist 12345] else [Dist 0])
           (λ smpl _ _, smpl) (λ smpl _ _, smpl ++ smpl)
           {| ctx := {| kv := hi_tokens ++ [72; 101]; step := 2 |};
              chat_history := [user "hi"]; chat_buffer := [] |}
           (open plain [user "hi"]) 4 zero (Some collect) []
           eq_refl eq_refl eq_refl eq_refl).
Defined.

(** Witness of C9. *)
Lemma respond_keeps_history_witness :
  chat_history
    (session {| result := list_byte_of_string "Hell";
                session := {| ctx := {| kv := hi_tokens ++ [72; 101; 108; 108];
                                        step := 4 |};
                              chat_history := [user "hi"];
                              chat_buffer := [] |};
                sink_data := () |})
  = chat_history (open plain [user "hi"]).
Proof.
  apply (respond_keeps_history (engine plain) (open plain [user "hi"]) 4 zero
           None ()).
  vm_compute. reflexivity.
Defined.

(** Witness of C10: the letter H, one byte, and token 300, 256 bytes. *)
Lemma piece_terminator_bounds_witness :
  (0 < piece_len (engine wide) 72
   ∧ piece_len (engine wide) 72 < 256
   ∧ emit_piece (engine wide) 72 [] (Some collect) []
     = Done ([] ++ take (Z.to_nat (piece_len (engine wide) 72))
                     (llama_token_to_piece (engine wide) 72 256 0 true).2,
             collect
               (cstring
                  (<[Z.to_nat (piece_len (engine wide) 72) := x00]>
                     (llama_token_to_piece (engine wide) 72 256 0 true).2))
               []))
  ∧ (0 < piece_len (engine wide) 300
     ∧ piece_len (engine wide) 300 = 256
     ∧ emit_piece (engine wide) 300 [] (Some collect) []
       = Undefined OutOfBoundsWrite).
Proof.
  assert (0 < piece_len (engine wide) 72) as H1 by (vm_compute; reflexivity).
  assert (piece_len (engine wide) 72 < 256) as H2
    by (vm_compute; reflexivity).
  assert (0 < piece_len (engine wide) 300) as H3
    by (vm_compute; reflexivity).
  assert (piece_len (engine wide) 300 = 256) as H4
    by (vm_compute; reflexivity).
  split.
  - split; [exact H1|]. split; [exact H2|].
    exact (proj1 (proj1 (piece_terminator_bounds (engine wide) 72 []
                           collect [] H1) H2)).
  - split; [exact H3|]. split; [exact H4|].
    exact (proj2 (piece_terminator_bounds (engine wide) 300 [] collect []
                    H3) H4).
Defined.

End Runs.

(** * More of the adapter *)

(** ** The prompt's batch, entry by entry *)

Lemma batch_add_from_layout (tokens : list llama_token) :
  ∀ batch i,
  batch_add_from batch i tokens
  = {| n_tokens := n_tokens batch + Z.of_nat (length tokens);
       token := token batch ++ tokens;
       pos := (λ a, a ++ seqZ i (Z.of_nat (length tokens))) <$> pos batch;
       seq_id := (λ a, a ++ replicate (length tokens) [0]) <$> seq_id batch;
       logits := (λ a, a ++ replicate (length tokens) false)
                 <$> logits batch |}.
Proof.
  induction tokens as [|t tokens IH]; intros batch i.
  - destruct batch as [n tk [p|] [s|] [l|]]; simpl;
      rewrite ?app_nil_r, Z.add_0_r; reflexivity.
  - simpl batch_add_from. rewrite IH. simpl length.
    rewrite Nat2Z.inj_succ, (seqZ_cons i) by lia.
    replace (Z.pred (Z.succ (Z.of_nat (length tokens))))
      with (Z.of_nat (length tokens)) by lia.
    replace (Z.succ i) with (i + 1) by lia.
    destruct batch as [n tk [p|] [s|] [l|]]; simpl;
      rewrite <- ?app_assoc; simpl; f_equal; lia.
Qed.

Lemma mark_replicate (n : nat) :
  <[n := true]> (replicate (S n) false) = replicate n false ++ [true].
Proof. induction n as [|n IH]; [done|]. simpl. f_equal. exact IH. Qed.

(** ** The loop, token by token *)

Section Run.
Context (E : llama_engine).

(** What the loop leaves, in terms of the tokens it generated: the response
    is their pieces, the context has decoded them one by one, the sink was
    offered each of them, and each was drawn from the context the ones
    before it led to. *)
Lemma generate_loop_run {U} (callback : option (TokenCallback U))
    (temperature : float) (remaining : nat) :
  pieces_fit E callback →
  ∀ c n0 resp user_data gen,
  ∃ g new,
    generate_loop E remaining temperature callback c n0 resp user_data gen
      = Done g
    ∧ generated g = gen ++ new
    ∧ response g = resp ++ concat (piece_of E <$> new)
    ∧ gen_ctx g = foldl (decode_one E) c new
    ∧ gen_user_data g = foldl (deliver E callback) user_data new
    ∧ n_pos g = n0 + Z.of_nat (length new)
    ∧ (length new ≤ remaining)%nat
    ∧ (new ≠ [] → n_pos g ≤ 8192)
    ∧ (∀ i t, new !! i = Some t →
         t = sample_token E (foldl (decode_one E) c (take i new))
               temperature).
Proof.
  intros Hfit.
  induction remaining as [|k IH]; intros c n0 resp user_data gen.
  - eexists _, []. split; [done|]. simpl. rewrite !app_nil_r.
    split_and!; [done | done | done | done | lia | lia | done | done].
  - simpl. destruct (Z.ltb_spec n0 8192) as [Hctx|Hctx].
    + destruct (llama_vocab_is_eog E (sample_token E c temperature)) eqn:Heog.
      * eexists _, []. split; [done|]. simpl. rewrite !app_nil_r.
        split_and!; [done | done | done | done | lia | lia | done | done].
      * rewrite (emit_piece_fits E callback) by done.
        destruct (llama_decode E c (llama_batch_get_one [sample_token E c temperature]))
          as [status c'] eqn:Hdec.
        assert (decode_one E c (sample_token E c temperature) = c') as Hone
          by (unfold decode_one; by rewrite Hdec).
        edestruct (IH c' (n0 + 1))
          as (g & new & Hg & Hgen & Hresp & Hc & Hud & Hpos & Hlen & Hlim
              & Hchain).
        exists g, (sample_token E c temperature :: new).
        split; [exact Hg|]. simpl. rewrite Hone.
        split_and!.
        -- by rewrite Hgen, <- app_assoc.
        -- by rewrite Hresp, <- app_assoc.
        -- done.
        -- done.
        -- lia.
        -- lia.
        -- intros _. destruct new as [|t new]; [simpl in Hpos; lia|].
           by apply Hlim.
        -- intros [|i] t; simpl; [by intros [= <-]|].
           rewrite Hone. apply Hchain.
    + eexists _, []. split; [done|]. simpl. rewrite !app_nil_r.
      split_and!; [done | done | done | done | lia | lia | done | done].
Qed.

(** A larger [max_tokens] goes the same way and further. *)
Lemma generate_loop_further {U} (callback : option (TokenCallback U))
    (temperature : float) (k : nat) :
  pieces_fit E callback →
  ∀ k' c n0 resp user_data gen,
  (k ≤ k')%nat →
  ∃ g g' more,
    generate_loop E k temperature callback c n0 resp user_data gen = Done g
    ∧ generate_loop E k' temperature callback c n0 resp user_data gen
      = Done g'
    ∧ generated g' = generated g ++ more
    ∧ response g' = response g ++ concat (piece_of E <$> more).
Proof.
  intros Hfit.
  induction k as [|k IH]; intros k' c n0 resp user_data gen Hle.
  - destruct (generate_loop_run callback temperature k' Hfit c n0 resp
                user_data gen)
      as (g' & new & Hg' & Hgen & Hresp & _).
    eexists _, g', new. split; [done|]. by split.
  - destruct k' as [|k']; [lia|]. simpl.
    destruct (n0 <? 8192).
    + destruct (llama_vocab_is_eog E (sample_token E c temperature)).
      * eexists _, _, []. split; [done|]. split; [done|]. simpl.
        by rewrite !app_nil_r.
      * rewrite (emit_piece_fits E callback) by done.
        destruct (llama_decode E c _) as [status c'].
        apply IH. lia.
    + eexists _, _, []. split; [done|]. split; [done|]. simpl.
      by rewrite !app_nil_r.
Qed.

End Run.

(** ** Strings cut at a NUL *)


(** The string read from a longer memory continues the string read from a
    shorter one that ends in a terminator. *)
Lemma cstring_app_prefix (s more : list byte) :
  cstring (s ++ [x00]) `prefix_of` cstring (s ++ more).
Proof.
  induction s as [|b s IH]; simpl; [apply prefix_nil|].
  destruct (Byte.eqb b x00); [done | by apply prefix_cons].
Qed.



(** ** A turn, from the prompt's tokens on *)

Section Turn.
Context (E : llama_engine).

(** [generate_from] in terms of the tokens it generated. *)
Lemma generate_from_run {U} (llm : LlmContext (llama_context E))
    (tokens : list llama_token) (max_tokens : Z) (temperature : float)
    (callback : option (TokenCallback U)) (user_data : U) :
  pieces_fit E callback →
  tokens ≠ [] →
  ∃ batch g,
    prompt_batch tokens = Done batch
    ∧ n_tokens batch = Z.of_nat (length tokens)
    ∧ token batch = tokens
    ∧ generate_from E llm tokens max_tokens temperature callback user_data
      = Done g
    ∧ response g = concat (piece_of E <$> generated g)
    ∧ gen_ctx g
      = foldl (decode_one E) (llama_decode E (ctx llm) batch).2 (generated g)
    ∧ gen_user_data g = foldl (deliver E callback) user_data (generated g)
    ∧ n_pos g = Z.of_nat (length tokens) + Z.of_nat (length (generated g))
    ∧ (generated g ≠ [] → n_pos g ≤ 8192)
    ∧ (∀ i t, generated g !! i = Some t →
         t = sample_token E
               (foldl (decode_one E) (llama_decode E (ctx llm) batch).2
                  (take i (generated g)))
               temperature).
Proof.
  intros Hfit Hne.
  destruct (prompt_batch_done tokens Hne) as (batch & Hbatch & Hn & Htok).
  exists batch. unfold generate_from. rewrite Hbatch.
  destruct (llama_decode E (ctx llm) batch) as [status c].
  destruct (generate_loop_run E callback temperature (Z.to_nat max_tokens)
              Hfit c (Z.of_nat (length tokens)) [] user_data [])
    as (g & new & Hg & Hgen & Hresp & Hc & Hud & Hpos & _ & Hlim & Hchain).
  simpl in Hgen, Hresp. subst new.
  exists g. simpl. split_and!; done.
Qed.

(** Without an iteration the loop hands back what it was given. *)
Lemma generate_loop_idle {U} (callback : option (TokenCallback U))
    (temperature : float) (remaining : nat) (c : llama_context E) (n0 : Z)
    (resp : list byte) (user_data : U) (gen : list llama_token) :
  remaining = 0%nat ∨ 8192 ≤ n0 →
  ∃ way,
    generate_loop E remaining temperature callback c n0 resp user_data gen
    = Done {| response := resp; gen_ctx := c; gen_user_data := user_data;
              n_pos := n0; generated := gen; exit_by := way |}.
Proof.
  intros Hidle. destruct remaining as [|k]; simpl; [by eexists|].
  destruct Hidle as [|Hfull]; [done|].
  destruct (Z.ltb_spec n0 8192); [lia | by eexists].
Qed.

(** The loop goes the same way with a sink as without. *)
Lemma generate_loop_no_sink {U} (cb : TokenCallback U)
    (temperature : float) (remaining : nat) :
  pieces_fit E (Some cb) →
  ∀ c n0 resp user_data gen,
  ∃ g,
    generate_loop E remaining temperature (Some cb) c n0 resp user_data gen
      = Done g
    ∧ generate_loop E remaining temperature None c n0 resp () gen
      = Done {| response := response g; gen_ctx := gen_ctx g;
                gen_user_data := (); n_pos := n_pos g;
                generated := generated g; exit_by := exit_by g |}.
Proof.
  intros Hfit.
  induction remaining as [|k IH]; intros c n0 resp user_data gen.
  - eexists. split; [done|]. simpl. done.
  - simpl. destruct (n0 <? 8192).
    + destruct (llama_vocab_is_eog E (sample_token E c temperature)).
      * eexists. split; [done|]. simpl. done.
      * rewrite (emit_piece_fits E (Some cb)) by done.
        rewrite (emit_piece_fits E None) by by eapply pieces_fit_no_sink.
        destruct (llama_decode E c _) as [status c'].
        apply IH.
    + eexists. split; [done|]. simpl. done.
Qed.

(** The sink is called for the tokens that have bytes, and only those. *)
Lemma deliver_filter {U} (cb : TokenCallback U) (tokens : list llama_token) :
  ∀ user_data,
  foldl (deliver E (Some cb)) user_data tokens
  = foldl (λ u t, cb (delivered E t) u) user_data
      (filter (λ t, 0 < piece_len E t) tokens).
Proof.
  induction tokens as [|t tokens IH]; intros user_data; [done|].
  simpl foldl. rewrite IH.
  destruct (Z.gtb_spec (piece_len E t) 0).
  - by rewrite filter_cons_True by lia.
  - by rewrite filter_cons_False by lia.
Qed.


End Turn.

(** ** Further properties *)

(** X1.  For a prompt of at least one token, lines 135-139 build a batch
    that holds the tokens in their order, at positions 0, 1, 2, ..., each in
    sequence 0 alone, and asks for logits at the last position only. *)
Theorem prompt_batch_layout (tokens : list llama_token) :
  tokens ≠ [] →
  prompt_batch tokens
  = Done {| n_tokens := Z.of_nat (length tokens);
            token := tokens;
            pos := Some (seqZ 0 (Z.of_nat (length tokens)));
            seq_id := Some (replicate (length tokens) [0]);
            logits := Some (replicate (length tokens - 1) false ++ [true]) |}.
Proof.
  intros Hne. unfold prompt_batch. rewrite batch_add_from_layout.
  destruct tokens as [|t tokens]; [done|].
  remember (t :: tokens) as l.
  assert (length l = S (length tokens)) as Hl by (subst; done).
  clear Heql Hne. unfold mark_last, llama_batch_init.
  cbn -[seqZ replicate Z.of_nat Z.add Z.sub Z.leb Z.ltb length].
  rewrite length_replicate, Hl.
  destruct (Z.leb_spec 0 (0 + Z.of_nat (S (length tokens)) - 1)); [|lia].
  destruct (Z.ltb_spec (0 + Z.of_nat (S (length tokens)) - 1)
              (Z.of_nat (S (length tokens)))); [|lia].
  replace (Z.to_nat (0 + Z.of_nat (S (length tokens)) - 1))
    with (length tokens) by lia.
  rewrite mark_replicate, Z.add_0_l. simpl Nat.sub. rewrite Nat.sub_0_r.
  reflexivity.
Qed.

(** X2.  When the tokenizer finds no token in the rendered prompt, the
    batch is empty and line 139 stores at index -1: the call is
    undefined. *)
Theorem empty_prompt_is_undefined (E : llama_engine) {U}
    (llm : LlmContext (llama_context E)) (max_tokens : Z)
    (temperature : float) (callback : option (TokenCallback U))
    (user_data : U) (buf : list byte) (k : nat) :
  render_prompt E llm = Next buf →
  strlen buf = Some k →
  (llama_tokenize E (take k buf) (Z.of_nat k + 16) true false).1 = 0 →
  generate_response E llm max_tokens temperature callback user_data
  = Undefined OutOfBoundsWrite.
Proof.
  intros Hbuf Hk Hcount. unfold generate_response, build_prompt.
  rewrite Hbuf. simpl. unfold tokenize_prompt. rewrite Hk.
  destruct (llama_tokenize E (take k buf) (Z.of_nat k + 16) true false)
    as [count tokens].
  simpl in Hcount. subst count.
  change (0 <? 0) with false. cbv iota. change (Z.to_nat 0) with 0%nat.
  rewrite resize_0. reflexivity.
Qed.

(** X3.  The loop never takes the position past 8192: a prompt of at most
    8192 tokens and the tokens generated after it are at most 8192
    together. *)
Theorem loop_stays_in_context (E : llama_engine) {U}
    (llm : LlmContext (llama_context E)) (tokens : list llama_token)
    (max_tokens : Z) (temperature : float)
    (callback : option (TokenCallback U)) (user_data : U) :
  pieces_fit E callback →
  tokens ≠ [] →
  ∃ g,
    generate_from E llm tokens max_tokens temperature callback user_data
      = Done g
    ∧ n_pos g ≤ Z.max 8192 (Z.of_nat (length tokens))
    ∧ (Z.of_nat (length tokens) ≤ 8192 →
       Z.of_nat (length tokens) + Z.of_nat (length (generated g)) ≤ 8192).
Proof.
  intros Hfit Hne.
  destruct (generate_from_run E llm tokens max_tokens temperature callback
              user_data Hfit Hne)
    as (batch & g & _ & _ & _ & Hg & _ & _ & _ & Hpos & Hlim & _).
  exists g. split; [done|].
  destruct (decide (generated g = [])) as [Hnew|Hnew].
  - rewrite Hnew in Hpos |- *. simpl in Hpos |- *. split; lia.
  - specialize (Hlim Hnew). split; lia.
Qed.

(** X4.  A prompt of 8192 tokens or more is still given to the engine, but
    no token is sampled: the call returns the empty string, does not call
    the sink, and leaves the context as the prompt's batch left it. *)
Theorem full_context_returns_empty (E : llama_engine) {U}
    (llm : LlmContext (llama_context E)) (tokens : list llama_token)
    (max_tokens : Z) (temperature : float)
    (callback : option (TokenCallback U)) (user_data : U) :
  build_prompt E llm = Next tokens →
  8192 ≤ Z.of_nat (length tokens) →
  ∃ batch,
    prompt_batch tokens = Done batch
    ∧ generate_response E llm max_tokens temperature callback user_data
      = Done {| result := [];
                session := {| ctx := (llama_decode E (ctx llm) batch).2;
                              chat_history := chat_history llm;
                              chat_buffer := chat_buffer llm |};
                sink_data := user_data |}.
Proof.
  intros Hprompt Hfull.
  assert (tokens ≠ []) as Hne by (intros ->; simpl in Hfull; lia).
  destruct (prompt_batch_done tokens Hne) as (batch & Hbatch & _ & _).
  exists batch. split; [done|].
  unfold generate_response, generate_from. rewrite Hprompt, Hbatch.
  destruct (llama_decode E (ctx llm) batch) as [status c].
  destruct (generate_loop_idle E callback temperature (Z.to_nat max_tokens) c
              (Z.of_nat (length tokens)) [] user_data [] (or_intror Hfull))
    as [way ->].
  reflexivity.
Qed.

(** X5.  With [max_tokens] zero or negative the prompt is given to the
    engine and nothing else happens: the call returns the empty string. *)
Theorem no_tokens_asked_returns_empty (E : llama_engine) {U}
    (llm : LlmContext (llama_context E)) (tokens : list llama_token)
    (max_tokens : Z) (temperature : float)
    (callback : option (TokenCallback U)) (user_data : U) :
  build_prompt E llm = Next tokens →
  tokens ≠ [] →
  max_tokens ≤ 0 →
  ∃ batch,
    prompt_batch tokens = Done batch
    ∧ generate_response E llm max_tokens temperature callback user_data
      = Done {| result := [];
                session := {| ctx := (llama_decode E (ctx llm) batch).2;
                              chat_history := chat_history llm;
                              chat_buffer := chat_buffer llm |};
                sink_data := user_data |}.
Proof.
  intros Hprompt Hne Hmax.
  destruct (prompt_batch_done tokens Hne) as (batch & Hbatch & _ & _).
  exists batch. split; [done|].
  unfold generate_response, generate_from. rewrite Hprompt, Hbatch.
  destruct (llama_decode E (ctx llm) batch) as [status c].
  assert (Z.to_nat max_tokens = 0%nat ∨ 8192 ≤ Z.of_nat (length tokens))
    as Hidle by (left; lia).
  destruct (generate_loop_idle E callback temperature (Z.to_nat max_tokens) c
              (Z.of_nat (length tokens)) [] user_data [] Hidle)
    as [way ->].
  reflexivity.
Qed.

(** X6.  The response is the pieces of the generated tokens, one after the
    other, for a token without bytes nothing. *)
Theorem response_is_the_pieces (E : llama_engine) {U}
    (llm : LlmContext (llama_context E)) (tokens : list llama_token)
    (max_tokens : Z) (temperature : float)
    (callback : option (TokenCallback U)) (user_data : U) :
  pieces_fit E callback →
  tokens ≠ [] →
  ∃ g,
    generate_from E llm tokens max_tokens temperature callback user_data
      = Done g
    ∧ response g = concat (piece_of E <$> generated g).
Proof.
  intros Hfit Hne.
  destruct (generate_from_run E llm tokens max_tokens temperature callback
              user_data Hfit Hne)
    as (batch & g & _ & _ & _ & Hg & Hresp & _).
  by exists g.
Qed.

(** X7.  The sink is called once for each generated token that has at
    least one byte, in the order of generation, with the string [piece]
    holds for it, and for no other token. *)
Theorem sink_called_once_per_piece (E : llama_engine) {U}
    (llm : LlmContext (llama_context E)) (tokens : list llama_token)
    (max_tokens : Z) (temperature : float) (cb : TokenCallback U)
    (user_data : U) :
  pieces_fit E (Some cb) →
  tokens ≠ [] →
  ∃ g,
    generate_from E llm tokens max_tokens temperature (Some cb) user_data
      = Done g
    ∧ gen_user_data g
      = foldl (λ u t, cb (delivered E t) u) user_data
          (filter (λ t, 0 < piece_len E t) (generated g)).
Proof.
  intros Hfit Hne.
  destruct (generate_from_run E llm tokens max_tokens temperature (Some cb)
              user_data Hfit Hne)
    as (batch & g & _ & _ & _ & Hg & _ & _ & Hud & _).
  exists g. split; [done|]. by rewrite Hud, deliver_filter.
Qed.

(** X8.  Each generated token is the one [sample_token] draws from the
    context reached by decoding the prompt's batch and then the tokens
    generated before it, one single-token batch each; the context the
    session is left with has decoded all of them. *)
Theorem generation_is_autoregressive (E : llama_engine) {U}
    (llm : LlmContext (llama_context E)) (tokens : list llama_token)
    (max_tokens : Z) (temperature : float)
    (callback : option (TokenCallback U)) (user_data : U) :
  pieces_fit E callback →
  tokens ≠ [] →
  ∃ batch g,
    prompt_batch tokens = Done batch
    ∧ generate_from E llm tokens max_tokens temperature callback user_data
      = Done g
    ∧ gen_ctx g
      = foldl (decode_one E) (llama_decode E (ctx llm) batch).2 (generated g)
    ∧ (∀ i t, generated g !! i = Some t →
         t = sample_token E
               (foldl (decode_one E) (llama_decode E (ctx llm) batch).2
                  (take i (generated g)))
               temperature).
Proof.
  intros Hfit Hne.
  destruct (generate_from_run E llm tokens max_tokens temperature callback
              user_data Hfit Hne)
    as (batch & g & Hbatch & _ & _ & Hg & _ & Hc & _ & _ & _ & Hchain).
  by exists batch, g.
Qed.

(** A call leaves history and buffer of the session alone. *)
Lemma generate_response_session (E : llama_engine) {U}
    (llm : LlmContext (llama_context E)) (max_tokens : Z)
    (temperature : float) (callback : option (TokenCallback U))
    (user_data : U) (t : turn (llama_context E) U) :
  generate_response E llm max_tokens temperature callback user_data = Done t →
  chat_history (session t) = chat_history llm
  ∧ chat_buffer (session t) = chat_buffer llm.
Proof.
  unfold generate_response. destruct (build_prompt E llm) as [tokens|s|f].
  - destruct (generate_from E llm tokens _ _ _ _) as [g|f]; [|done].
    by intros [= <-].
  - by intros [= <-].
  - done.
Qed.

(** X9.  Messages given to [llm_chat_add_user] one after the other end up
    at the end of the history in that order, each with the role "user";
    what was there before stays in front, and the engine context is not
    touched. *)
Theorem add_user_appends_in_order (E : llama_engine)
    (llm : LlmContext (llama_context E)) (messages : list string) :
  chat_history (foldl (llm_chat_add_user E) llm messages)
  = chat_history llm
    ++ ((λ m, {| role := "user"; content := m |}) <$> messages)
  ∧ ctx (foldl (llm_chat_add_user E) llm messages) = ctx llm
  ∧ chat_buffer (foldl (llm_chat_add_user E) llm messages) = chat_buffer llm.
Proof.
  revert llm. induction messages as [|m messages IH]; intros llm.
  - simpl. by rewrite app_nil_r.
  - simpl foldl. destruct (IH (llm_chat_add_user E llm m)) as (Hh & Hc & Hb).
    rewrite Hh, Hc, Hb. simpl. by rewrite <- app_assoc.
Qed.

(** X10.  [llm_generate] drops the conversation: what it returns does not
    depend on the history the session held (only on the prompt and on the
    cleared context), and afterwards the history holds the prompt and
    nothing else. *)
Theorem generate_forgets_history (E : llama_engine)
    (l1 l2 : LlmContext (llama_context E)) (prompt : string) (max_tokens : Z)
    (temperature : float) :
  llama_kv_self_clear E (ctx l1) = llama_kv_self_clear E (ctx l2) →
  observation (llm_generate E l1 prompt max_tokens temperature)
  = observation (llm_generate E l2 prompt max_tokens temperature)
  ∧ (∀ t, llm_generate E l1 prompt max_tokens temperature = Done t →
       chat_history (session t) = [{| role := "user"; content := prompt |}]).
Proof.
  intros Hclear. split.
  - unfold llm_generate, llm_chat_respond. by apply generate_response_ext.
  - intros t Ht. unfold llm_generate, llm_chat_respond in Ht.
    by apply generate_response_session in Ht as [-> _].
Qed.

(** X11.  A sink has no say in the generation: with any sink whose pieces
    fit the buffer, the call returns the string and leaves the session that
    [llm_chat_respond] does. *)
Theorem sink_does_not_steer (E : llama_engine) {U}
    (llm : LlmContext (llama_context E)) (max_tokens : Z)
    (temperature : float) (cb : TokenCallback U) (user_data : U) :
  pieces_fit E (Some cb) →
  outputs (generate_response E llm max_tokens temperature (Some cb) user_data)
  = outputs (llm_chat_respond E llm max_tokens temperature).
Proof.
  intros Hfit. unfold llm_chat_respond, generate_response, generate_from.
  destruct (build_prompt E llm) as [tokens|s|f]; [|done..].
  destruct (prompt_batch tokens) as [batch|f]; [|done].
  destruct (llama_decode E (ctx llm) batch) as [status c].
  destruct (generate_loop_no_sink E cb temperature (Z.to_nat max_tokens) Hfit
              c (Z.of_nat (length tokens)) [] user_data [])
    as (g & -> & ->).
  reflexivity.
Qed.


(** X13.  Asking for more tokens continues the same reply: the tokens
    generated with a smaller [max_tokens] are the first ones generated with
    a larger one, and the string returned for the smaller starts the
    string returned for the larger. *)
Theorem more_tokens_extend_reply (E : llama_engine) {U}
    (llm : LlmContext (llama_context E)) (tokens : list llama_token)
    (fewer more : Z) (temperature : float)
    (callback : option (TokenCallback U)) (user_data : U) :
  pieces_fit E callback →
  build_prompt E llm = Next tokens →
  tokens ≠ [] →
  fewer ≤ more →
  ∃ g g' t t',
    generate_from E llm tokens fewer temperature callback user_data = Done g
    ∧ generate_from E llm tokens more temperature callback user_data
      = Done g'
    ∧ generate_response E llm fewer temperature callback user_data = Done t
    ∧ generate_response E llm more temperature callback user_data = Done t'
    ∧ generated g `prefix_of` generated g'
    ∧ response g `prefix_of` response g'
    ∧ result t `prefix_of` result t'.
Proof.
  intros Hfit Hprompt Hne Hle.
  destruct (prompt_batch_done tokens Hne) as (batch & Hbatch & _ & _).
  unfold generate_response, generate_from. rewrite Hprompt, Hbatch.
  destruct (llama_decode E (ctx llm) batch) as [status c].
  destruct (generate_loop_further E callback temperature (Z.to_nat fewer)
              Hfit (Z.to_nat more) c (Z.of_nat (length tokens)) []
              user_data [] ltac:(lia))
    as (g & g' & extra & -> & -> & Hgen & Hresp).
  eexists g, g', _, _. split_and!; try done.
  - rewrite Hgen. by apply prefix_app_r.
  - rewrite Hresp. by apply prefix_app_r.
  - simpl. unfold strdup, c_str. rewrite Hresp, <- app_assoc.
    apply cstring_app_prefix.
Qed.


(** X15.  When [llm_init] returns null, either the model did not load, or it
    loaded and the context could not be created; in both cases every handle
    the call acquired has been released: the model if it was loaded, and no
    context was acquired or released. *)
Theorem init_failure_is_clean {E : llama_engine}
    (L : Lifecycle.llama_loader E) (path : string) :
  (Lifecycle.llm_init L path).1 = None →
  (Lifecycle.llama_model_load_from_file L path (Lifecycle.model_params L)
   = None
   ∨ ∃ m,
       Lifecycle.llama_model_load_from_file L path (Lifecycle.model_params L)
       = Some m
       ∧ Lifecycle.llama_init_from_model L m (Lifecycle.ctx_params L) = None)
  ∧ Lifecycle.models_released L (Lifecycle.llm_init L path).2
    = Lifecycle.models_acquired L (Lifecycle.llm_init L path).2
  ∧ Lifecycle.contexts_acquired L (Lifecycle.llm_init L path).2 = []
  ∧ Lifecycle.contexts_released L (Lifecycle.llm_init L path).2 = [].
Proof.
  unfold Lifecycle.llm_init.
  destruct (Lifecycle.llama_model_load_from_file L path _) as [m|] eqn:Hload.
  - destruct (Lifecycle.llama_init_from_model L m _) as [c|] eqn:Hinit;
      [done|].
    intros _. split; [right; by exists m|]. done.
  - intros _. split; [by left|]. done.
Qed.

(** X16.  A session [llm_init] returns was made from a model that loaded
    with 100 layers asked onto the GPU and a context created for it with a
    window of 8192 tokens and batches of 2048; its history is empty.
    Freeing it releases the context first and the model second, and with
    that everything the two calls acquired. *)
Theorem init_then_free_releases_all {E : llama_engine}
    (L : Lifecycle.llama_loader E) (path : string) (m : Lifecycle.llama_model L)
    (s : LlmContext (llama_context E)) :
  (Lifecycle.llm_init L path).1 = Some (m, s) →
  (∃ mp cp,
     Lifecycle.llama_model_load_from_file L path mp = Some m
     ∧ Lifecycle.n_gpu_layers mp = 100
     ∧ Lifecycle.llama_init_from_model L m cp = Some (ctx s)
     ∧ Lifecycle.n_ctx cp = 8192
     ∧ Lifecycle.n_batch cp = 2048)
  ∧ chat_history s = []
  ∧ (Lifecycle.llm_init L path).2 ++ Lifecycle.llm_free L (Some (m, s))
    = [Lifecycle.BackendInit; Lifecycle.ModelLoaded m;
       Lifecycle.ContextCreated (ctx s); Lifecycle.ContextFreed (ctx s);
       Lifecycle.ModelFreed m].
Proof.
  unfold Lifecycle.llm_init.
  destruct (Lifecycle.llama_model_load_from_file L path _) as [m'|] eqn:Hload;
    [|done].
  destruct (Lifecycle.llama_init_from_model L m' _) as [c|] eqn:Hinit;
    [|done].
  simpl. intros [= <- <-]. simpl. split; [|done].
  exists (Lifecycle.model_params L), (Lifecycle.ctx_params L).
  split_and!; done.
Qed.

(** ** The mock engine, again *)

Section MoreMockFacts.
Import Mock.


End MoreMockFacts.

Section MoreRuns.
Import Mock.


Lemma hi_prompt (cfg : config) :
  template_known cfg = true →
  tokens_per_byte cfg = 1%nat →
  build_prompt (engine cfg) (open cfg [user "hi"]) = Next hi_tokens.
Proof.
  intros Hknown Hper. unfold build_prompt, render_prompt. simpl.
  unfold chat_apply_template. rewrite Hknown. simpl.
  unfold tokenize_prompt. simpl. unfold tokenize, encode. rewrite Hper.
  vm_compute. reflexivity.
Qed.

(** Witness of X1. *)
Lemma prompt_batch_layout_witness :
  prompt_batch hi_tokens
  = Done {| n_tokens := Z.of_nat (length hi_tokens);
            token := hi_tokens;
            pos := Some (seqZ 0 (Z.of_nat (length hi_tokens)));
            seq_id := Some (replicate (length hi_tokens) [0]);
            logits :=
              Some (replicate (length hi_tokens - 1) false ++ [true]) |}.
Proof.
  apply (prompt_batch_layout hi_tokens). discriminate.
Defined.

(** Witness of X2: the mock engine with a tokenizer that finds nothing. *)
Lemma empty_prompt_is_undefined_witness :
  generate_response (with_tokenizer (engine plain) silent_tokenizer)
    (open plain [user "hi"]) 4 zero (Some collect) []
  = Undefined OutOfBoundsWrite.
Proof.
  apply (empty_prompt_is_undefined
           (with_tokenizer (engine plain) silent_tokenizer)
           (open plain [user "hi"]) 4 zero (Some collect) []
           (resize (Z.to_nat 8192) x00 (render [user "hi"] true)) 20);
    vm_compute; reflexivity.
Defined.

(** Witness of X3. *)
Lemma loop_stays_in_context_witness :
  ∃ g,
    generate_from (engine plain) (open plain [user "hi"]) hi_tokens 3 zero
      (Some collect) [] = Done g
    ∧ n_pos g ≤ Z.max 8192 (Z.of_nat (length hi_tokens))
    ∧ (Z.of_nat (length hi_tokens) ≤ 8192 →
       Z.of_nat (length hi_tokens) + Z.of_nat (length (generated g)) ≤ 8192).
Proof.
  apply (loop_stays_in_context (engine plain) (open plain [user "hi"])
           hi_tokens 3 zero (Some collect) []);
    [apply plain_pieces_fit | discriminate].
Defined.

(** Witness of X4: a prompt of exactly 8192 tokens. *)
Lemma full_context_returns_empty_witness :
  ∃ batch,
    prompt_batch (encode plain (render [long_user 8173] true) true)
    = Done batch
    ∧ generate_response (engine plain) (open plain [long_user 8173]) 5 zero
        (Some collect) []
      = Done {| result := [];
                session :=
                  {| ctx := (llama_decode (engine plain)
                               (ctx (open plain [long_user 8173])) batch).2;
                     chat_history := chat_history (open plain [long_user 8173]);
                     chat_buffer := chat_buffer (open plain [long_user 8173]) |};
                sink_data := [] |}.
Proof.
  apply (full_context_returns_empty (engine plain)
           (open plain [long_user 8173])
           (encode plain (render [long_user 8173] true) true) 5 zero
           (Some collect) []);
    vm_compute; [reflexivity | discriminate].
Defined.

(** Witness of X5. *)
Lemma no_tokens_asked_returns_empty_witness :
  ∃ batch,
    prompt_batch hi_tokens = Done batch
    ∧ generate_response (engine plain) (open plain [user "hi"]) 0 zero
        (Some collect) []
      = Done {| result := [];
                session :=
                  {| ctx := (llama_decode (engine plain)
                               (ctx (open plain [user "hi"])) batch).2;
                     chat_history := chat_history (open plain [user "hi"]);
                     chat_buffer := chat_buffer (open plain [user "hi"]) |};
                sink_data := [] |}.
Proof.
  apply (no_tokens_asked_returns_empty (engine plain)
           (open plain [user "hi"]) hi_tokens 0 zero (Some collect) []);
    [by apply hi_prompt | discriminate | lia].
Defined.

(** Witness of X6. *)
Lemma response_is_the_pieces_witness :
  ∃ g,
    generate_from (engine plain) (open plain [user "hi"]) hi_tokens 3 zero
      (Some collect) [] = Done g
    ∧ response g = concat (piece_of (engine plain) <$> generated g).
Proof.
  apply (response_is_the_pieces (engine plain) (open plain [user "hi"])
           hi_tokens 3 zero (Some collect) []);
    [apply plain_pieces_fit | discriminate].
Defined.

(** Witness of X7. *)
Lemma sink_called_once_per_piece_witness :
  ∃ g,
    generate_from (engine plain) (open plain [user "hi"]) hi_tokens 3 zero
      (Some collect) [] = Done g
    ∧ gen_user_data g
      = foldl (λ u t, collect (delivered (engine plain) t) u) []
          (filter (λ t, 0 < piece_len (engine plain) t) (generated g)).
Proof.
  apply (sink_called_once_per_piece (engine plain) (open plain [user "hi"])
           hi_tokens 3 zero collect []);
    [apply plain_pieces_fit | discriminate].
Defined.

(** Witness of X8. *)
Lemma generation_is_autoregressive_witness :
  ∃ batch g,
    prompt_batch hi_tokens = Done batch
    ∧ generate_from (engine plain) (open plain [user "hi"]) hi_tokens 3 zero
        (Some collect) [] = Done g
    ∧ gen_ctx g
      = foldl (decode_one (engine plain))
          (llama_decode (engine plain) (ctx (open plain [user "hi"])) batch).2
          (generated g)
    ∧ (∀ i t, generated g !! i = Some t →
         t = sample_token (engine plain)
               (foldl (decode_one (engine plain))
                  (llama_decode (engine plain)
                     (ctx (open plain [user "hi"])) batch).2
                  (take i (generated g)))
               zero).
Proof.
  apply (generation_is_autoregressive (engine plain)
           (open plain [user "hi"]) hi_tokens 3 zero (Some collect) []);
    [apply plain_pieces_fit | discriminate].
Defined.

(** Witness of X10: a session with a conversation behind it and a new
    one. *)
Lemma generate_forgets_history_witness :
  observation
    (llm_generate (engine plain)
       {| ctx := {| kv := hi_tokens; step := 0 |};
          chat_history := [user "one"; user "two"]; chat_buffer := [] |}
       "hi" 3 zero)
  = observation (llm_generate (engine plain) (open plain []) "hi" 3 zero).
Proof.
  exact (proj1 (generate_forgets_history (engine plain)
                  {| ctx := {| kv := hi_tokens; step := 0 |};
                     chat_history := [user "one"; user "two"];
                     chat_buffer := [] |}
                  (open plain []) "hi" 3 zero eq_refl)).
Defined.

(** Witness of X11. *)
Lemma sink_does_not_steer_witness :
  outputs (generate_response (engine plain) (open plain [user "hi"]) 3 zero
             (Some collect) [])
  = outputs (llm_chat_respond (engine plain) (open plain [user "hi"]) 3 zero).
Proof.
  apply (sink_does_not_steer (engine plain) (open plain [user "hi"]) 3 zero
           collect []).
  apply plain_pieces_fit.
Defined.


(** Witness of X13. *)
Lemma more_tokens_extend_reply_witness :
  ∃ g g' t t',
    generate_from (engine plain) (open plain [user "hi"]) hi_tokens 2 zero
      (Some collect) [] = Done g
    ∧ generate_from (engine plain) (open plain [user "hi"]) hi_tokens 4 zero
        (Some collect) [] = Done g'
    ∧ generate_response (engine plain) (open plain [user "hi"]) 2 zero
        (Some collect) [] = Done t
    ∧ generate_response (engine plain) (open plain [user "hi"]) 4 zero
        (Some collect) [] = Done t'
    ∧ generated g `prefix_of` generated g'
    ∧ response g `prefix_of` response g'
    ∧ result t `prefix_of` result t'.
Proof.
  apply (more_tokens_extend_reply (engine plain) (open plain [user "hi"])
           hi_tokens 2 4 zero (Some collect) []);
    [apply plain_pieces_fit | by apply hi_prompt | discriminate | lia].
Defined.


(** Witness of X15: the model loads and the context cannot be created. *)
Lemma init_failure_is_clean_witness :
  (Lifecycle.llama_model_load_from_file
     (Lifecycle.mock_loader (engine plain) fresh "model.gguf" false 8)
     "model.gguf"
     (Lifecycle.model_params
        (Lifecycle.mock_loader (engine plain) fresh "model.gguf" false 8))
   = None
   ∨ ∃ m,
       Lifecycle.llama_model_load_from_file
         (Lifecycle.mock_loader (engine plain) fresh "model.gguf" false 8)
         "model.gguf"
         (Lifecycle.model_params
            (Lifecycle.mock_loader (engine plain) fresh "model.gguf" false 8))
       = Some m
       ∧ Lifecycle.llama_init_from_model
           (Lifecycle.mock_loader (engine plain) fresh "model.gguf" false 8)
           m
           (Lifecycle.ctx_params
              (Lifecycle.mock_loader (engine plain) fresh "model.gguf" false
                 8))
         = None)
  ∧ Lifecycle.models_released
      (Lifecycle.mock_loader (engine plain) fresh "model.gguf" false 8)
      (Lifecycle.llm_init
         (Lifecycle.mock_loader (engine plain) fresh "model.gguf" false 8)
         "model.gguf").2
    = Lifecycle.models_acquired
        (Lifecycle.mock_loader (engine plain) fresh "model.gguf" false 8)
        (Lifecycle.llm_init
           (Lifecycle.mock_loader (engine plain) fresh "model.gguf" false 8)
           "model.gguf").2
  ∧ Lifecycle.contexts_acquired
      (Lifecycle.mock_loader (engine plain) fresh "model.gguf" false 8)
      (Lifecycle.llm_init
         (Lifecycle.mock_loader (engine plain) fresh "model.gguf" false 8)
         "model.gguf").2 = []
  ∧ Lifecycle.contexts_released
      (Lifecycle.mock_loader (engine plain) fresh "model.gguf" false 8)
      (Lifecycle.llm_init
         (Lifecycle.mock_loader (engine plain) fresh "model.gguf" false 8)
         "model.gguf").2 = [].
Proof.
  apply (init_failure_is_clean
           (Lifecycle.mock_loader (engine plain) fresh "model.gguf" false 8)
           "model.gguf").
  vm_compute. reflexivity.
Defined.

(** Witness of X16. *)
Lemma init_then_free_releases_all_witness :
  (Lifecycle.llm_init
     (Lifecycle.mock_loader (engine plain) fresh "model.gguf" true 8)
     "model.gguf").2
  ++ Lifecycle.llm_free
       (Lifecycle.mock_loader (engine plain) fresh "model.gguf" true 8)
       (Some ("model.gguf"%string, open plain []))
  = [Lifecycle.BackendInit; Lifecycle.ModelLoaded "model.gguf"%string;
     Lifecycle.ContextCreated (ctx (open plain []));
     Lifecycle.ContextFreed (ctx (open plain []));
     Lifecycle.ModelFreed "model.gguf"%string].
Proof.
  refine (proj2 (proj2 (init_then_free_releases_all
                          (Lifecycle.mock_loader (engine plain) fresh
                             "model.gguf" true 8)
                          "model.gguf" "model.gguf"%string (open plain [])
                          _))).
  vm_compute. reflexivity.
Defined.

End MoreRuns.

(** ** The edges of the buffers *)

Lemma strlen_no_nul (s : list byte) : no_nul s = true → strlen s = None.
Proof.
  unfold no_nul. induction s as [|b s IH]; simpl; [done|].
  destruct (Byte.eqb b x00); simpl; [done|].
  intros Hs. by rewrite IH.
Qed.

(** With its own stages put back, an engine is served as it is. *)
Lemma own_stages_same_loop (E : llama_engine) {U}
    (callback : option (TokenCallback U)) (temperature : float)
    (remaining : nat) :
  ∀ c n0 resp user_data gen,
  generate_loop
    (with_sampler_stages E (llama_sampler_init_temp E)
       (llama_sampler_init_dist E)
       (λ smpl c idx, (llama_sampler_sample E smpl c idx).2))
    remaining temperature callback c n0 resp user_data gen
  = generate_loop E remaining temperature callback c n0 resp user_data gen.
Proof.
  induction remaining as [|k IH]; intros c n0 resp user_data gen; [done|].
  simpl. destruct (n0 <? 8192); [|done].
  rewrite sample_token_stages.
  assert ((llama_sampler_sample E
             (llama_sampler_chain_add E
                (llama_sampler_chain_add E (llama_sampler_chain_init E)
                   (llama_sampler_init_temp E temperature))
                (llama_sampler_init_dist E 12345))
             c (-1)).1
          = sample_token E c temperature) as ->.
  { unfold sample_token. by destruct (llama_sampler_sample E _ c (-1)). }
  destruct (llama_vocab_is_eog E (sample_token E c temperature)); [done|].
  change (@emit_piece (with_sampler_stages E (llama_sampler_init_temp E)
                         (llama_sampler_init_dist E)
                         (λ smpl c idx, (llama_sampler_sample E smpl c idx).2))
            U)
    with (@emit_piece E U).
  destruct (emit_piece E _ resp callback user_data) as [[r u]|f]; [|done].
  destruct (llama_decode E c _) as [st c']. apply IH.
Qed.

Section Edges.
Import Mock.


(** The seed reaches the reply: on the engine whose draws depend on it, a
    distribution stage that differs at seed 12345 gives another string. *)
Example other_seed_other_reply :
  result <$> (match generate_response (seeded_engine plain)
                      (open plain [user "hi"]) 4 zero (Some collect) [] with
              | Done t => Some t
              | Undefined _ => None
              end)
  = Some (list_byte_of_string "ello")
  ∧ result <$> (match generate_response
                        (with_sampler_stages (seeded_engine plain)
                           (λ t, [Temp t]) (λ seed, [Dist (seed + 1)])
                           (λ smpl _ _, smpl))
                        (open plain [user "hi"]) 4 zero (Some collect) [] with
                | Done t => Some t
                | Undefined _ => None
                end)
    = Some (list_byte_of_string "Hell").
Proof. split; vm_compute; reflexivity. Qed.

End Edges.

(** C5.  The prompt builder leaves the specified algorithm at one size.
    When the renderer reports exactly 8192 bytes and has filled the 8192
    bytes of the buffer with them, none of them NUL, line 112 asks for no
    larger buffer ([len > size] is false) and line 123 measures a string
    that has no terminator inside the buffer: the read leaves the buffer
    and the rendered bytes are not tokenized, where the algorithm tokenizes
    them or reports an error string. *)
Theorem full_buffer_is_read_past_its_end (E : llama_engine)
    (llm : LlmContext (llama_context E)) (buf : list byte) :
  llama_chat_apply_template E (chat_history llm) true 8192 = (8192, buf) →
  no_nul buf = true →
  build_prompt E llm = Stuck OutOfBoundsRead
  ∧ build_prompt E llm
    ≠ flow_of_prompt (Spec.prompt_builder E (chat_history llm)).
Proof.
  intros Hrender Hfull.
  assert (build_prompt E llm = Stuck OutOfBoundsRead) as Hstuck.
  { unfold build_prompt, render_prompt. rewrite Hrender. simpl.
    unfold tokenize_prompt. by rewrite (strlen_no_nul buf Hfull). }
  split; [exact Hstuck|]. rewrite Hstuck.
  by destruct (Spec.prompt_builder E (chat_history llm)).
Qed.

Section EdgeRuns.
Import Mock.

(** Witness of C5: one user message of 8174 letters, 8192 bytes once
    rendered; the algorithm yields its 8193 tokens. *)
Lemma full_buffer_is_read_past_its_end_witness :
  llama_chat_apply_template (engine plain)
    (chat_history (open plain [long_user 8174])) true 8192
  = (8192, resize (Z.to_nat 8192) x00 (render [long_user 8174] true))
  ∧ no_nul (resize (Z.to_nat 8192) x00 (render [long_user 8174] true)) = true
  ∧ (build_prompt (engine plain) (open plain [long_user 8174])
     = Stuck OutOfBoundsRead
     ∧ build_prompt (engine plain) (open plain [long_user 8174])
       ≠ flow_of_prompt
           (Spec.prompt_builder (engine plain)
              (chat_history (open plain [long_user 8174]))))
  ∧ Spec.prompt_builder (engine plain)
      (chat_history (open plain [long_user 8174]))
    = Spec.Prompt (encode plain (render [long_user 8174] true) true).
Proof.
  assert (llama_chat_apply_template (engine plain)
            (chat_history (open plain [long_user 8174])) true 8192
          = (8192, resize (Z.to_nat 8192) x00 (render [long_user 8174] true)))
    as H1 by (vm_compute; reflexivity).
  assert (no_nul (resize (Z.to_nat 8192) x00 (render [long_user 8174] true))
          = true) as H2 by (vm_compute; reflexivity).
  split; [exact H1|]. split; [exact H2|]. split.
  - exact (full_buffer_is_read_past_its_end (engine plain)
             (open plain [long_user 8174]) _ H1 H2).
  - vm_compute. reflexivity.
Defined.

End EdgeRuns.

(** A turn on the engine with its own stages put back is the engine's
    turn, so [fixed_seed_turns_reproducible] speaks of every engine. *)
Lemma own_stages_same_turn (E : llama_engine) {U}
    (llm : LlmContext (llama_context E)) (max_tokens : Z)
    (temperature : float) (callback : option (TokenCallback U))
    (user_data : U) :
  generate_response
    (with_sampler_stages E (llama_sampler_init_temp E)
       (llama_sampler_init_dist E)
       (λ smpl c idx, (llama_sampler_sample E smpl c idx).2))
    llm max_tokens temperature callback user_data
  = generate_response E llm max_tokens temperature callback user_data.
Proof.
  unfold generate_response, generate_from.
  change (build_prompt (with_sampler_stages E _ _ _) llm)
    with (build_prompt E llm).
  destruct (build_prompt E llm) as [tokens|s|f]; [|done..].
  destruct (prompt_batch tokens) as [batch|f]; [|done].
  change (llama_decode (with_sampler_stages E _ _ _))
    with (llama_decode E).
  destruct (llama_decode E _ batch) as [st c].
  by rewrite own_stages_same_loop.
Qed.
